(** * SeatAdjusterApp: request validation, actuation and position mirroring

    A shallow embedding of [src/app/src/SeatAdjusterApp.cpp].  The callbacks
    of the application are written in a small monad that records the
    observable effects (log lines, telemetry reads and writes, bus
    publications) and the C++ exception, if any, that leaves the callback. *)

From Stdlib Require Import ZArith Lia.
From Stdlib Require Import Floats.SpecFloat.
From stdpp Require Import base option list strings gmap pretty sorting.

Local Open Scope string_scope.
Local Open Scope Z_scope.

(** ** JSON values ([nlohmann::json])

    The value kinds of [nlohmann::basic_json].  Integers are stored as
    [number_integer] (64-bit signed) or [number_unsigned] (64-bit unsigned);
    objects are [std::map]s from strings to values, hence finite maps. *)

#[warnings="-register-all"]
Inductive json : Type :=
  | JNull
  | JBool (b : bool)
  | JInt (z : Z)
  | JUInt (n : Z)
  | JFloat (f : spec_float)
  | JString (s : string)
  | JArray (l : list json)
  | JObject (m : gmap string json).

(** What ends a callback other than its return: an exception that leaves
    it, or the abort of the process by a failed assertion. *)
Inductive exn : Type :=
  | parse_error                 (* nlohmann::json::parse_error *)
  | type_error (id : Z)         (* nlohmann::json::type_error, with its id *)
  | assertion_failure           (* abort() by JSON_ASSERT, no exception *)
  | async_failure.              (* a failed call to the data broker *)

Module Json.

(** [j.contains(key)]: true only for an object that holds the key. *)
Definition contains (j : json) (key : string) : bool :=
  match j with
  | JObject m => bool_decide (is_Some (m !! key))
  | _ => false
  end.

(** [j[key]] on a [const] value ([jsonData] is declared [const auto]): any
    kind but an object throws [type_error] 305; on an object the key is
    looked up, [JSON_ASSERT]ed to be there and the iterator dereferenced.
    For a missing key that is no exception: with assertions compiled in
    the process aborts, without them the behaviour is not defined and the
    dereference yields an indeterminate value.  [missing] says which of
    the two the build at hand does for a key: [None] for the abort,
    [Some v] for the value [v] it reads. *)
Definition const_at (missing : string → option json) (j : json)
    (key : string) : exn + json :=
  match j with
  | JObject m =>
      match m !! key with
      | Some v => inr v
      | None =>
          match missing key with
          | Some v => inr v
          | None => inl assertion_failure
          end
      end
  | _ => inl (type_error 305)
  end.

(** The range of a 32-bit signed [int]. *)
Definition INT_MIN : Z := - 2 ^ 31.
Definition INT_MAX : Z := 2 ^ 31 - 1.

Definition int_fits (z : Z) : bool := (INT_MIN <=? z) && (z <=? INT_MAX).

(** [static_cast<int>] of a 64-bit integer, signed or unsigned: reduction
    modulo 2^32 into the range of [int]. *)
Definition to_int (z : Z) : Z := (z + 2 ^ 31) mod 2 ^ 32 - 2 ^ 31.

(** Truncation of a double towards zero; [None] for infinities and NaN. *)
Definition trunc (f : spec_float) : option Z :=
  match f with
  | S754_zero _ => Some 0
  | S754_finite s m e =>
      let a := if 0 <=? e then Z.pos m * 2 ^ e else Z.pos m / 2 ^ (- e) in
      Some (if s then - a else a)
  | S754_infinity _ | S754_nan => None
  end.

(** [j.get<int>()]: every number kind and booleans convert with a
    [static_cast], which never throws; any other kind throws [type_error]
    302.  The cast of a double whose integer part fits [int] truncates;
    for any other double (too large, an infinity, NaN) the language leaves
    the result open and the platform yields some [int]: [cast] names the
    value the platform at hand yields, taken as an [int]. *)
Definition get_int (cast : spec_float → Z) (j : json) : exn + Z :=
  match j with
  | JUInt n => inr (to_int n)
  | JInt z => inr (to_int z)
  | JFloat f =>
      inr (match trunc f with
           | Some z => if int_fits z then z else to_int (cast f)
           | None => to_int (cast f)
           end)
  | JBool b => inr (if b then 1 else 0)
  | _ => inl (type_error 302)
  end.

(** Construction from an initializer list of key/value pairs: an object;
    of two pairs with the same key the first one stays. *)
Definition object (l : list (string * json)) : json :=
  JObject (list_to_map l).

(** [j[key]] on a mutable value, read side: [null] turns into an object,
    a missing key is inserted as [null]. *)
Definition member_ref (j : json) (key : string) : exn + json :=
  match j with
  | JNull => inr JNull
  | JObject m => inr (default JNull (m !! key))
  | _ => inl (type_error 305)
  end.

(** [j[key] = v] on a mutable value. *)
Definition assign_member (j : json) (key : string) (v : json) : exn + json :=
  match j with
  | JNull => inr (JObject {[ key := v ]})
  | JObject m => inr (JObject (<[ key := v ]> m))
  | _ => inl (type_error 305)
  end.

(** [j[k1][k2] = v] on a mutable value. *)
Definition assign_member2 (j : json) (k1 k2 : string) (v : json) : exn + json :=
  match member_ref j k1 with
  | inl e => inl e
  | inr inner =>
      match assign_member inner k2 v with
      | inl e => inl e
      | inr inner' => assign_member j k1 inner'
      end
  end.

(** The kinds [get<int>()] accepts: the cases of its [switch] other than
    [default]. *)
Definition is_arithmetic (j : json) : bool :=
  match j with
  | JUInt _ | JInt _ | JFloat _ | JBool _ => true
  | _ => false
  end.

(** The integer a value denotes, when it is of an integer kind. *)
Definition as_integer (j : json) : option Z :=
  match j with
  | JInt z => Some z
  | JUInt n => Some n
  | _ => None
  end.

(** The member [key] of an object, if [j] is an object that has one. *)
Definition member (j : json) (key : string) : option json :=
  match j with
  | JObject m => m !! key
  | _ => None
  end.

End Json.

(** ** Observable effects *)

Inductive level : Type := Debug | Info | Warn | Error.

Inductive event : Type :=
  | Log (lvl : level) (msg : string)      (* velocitas::logger() *)
  | SpeedGet                              (* Vehicle.Speed.get() *)
  | PositionSet (v : Z)                   (* ...DriverSide.Position.set(v) *)
  | Publish (topic payload : string).     (* publishToTopic *)

Definition trace := list event.

Definition reads (t : trace) : nat :=
  length (omap (λ e, match e with SpeedGet => Some tt | _ => None end) t).

Definition writes (t : trace) : list Z :=
  omap (λ e, match e with PositionSet v => Some v | _ => None end) t.

Definition published (t : trace) : list (string * string) :=
  omap (λ e, match e with Publish tp pl => Some (tp, pl) | _ => None end) t.

Definition logged (t : trace) : list (level * string) :=
  omap (λ e, match e with Log l m => Some (l, m) | _ => None end) t.

(** ** Collaborators

    What the application takes from the Velocitas SDK, the generated vehicle
    model and the JSON and formatting libraries.  The value types of the two
    signals are declared in the vehicle model, so they are kept abstract
    together with the operations the callbacks apply to them. *)

Class Sdk : Type := {
  (** value type of [Vehicle.Speed] *)
  speed_t : Type;
  (** [vehicleSpeed == 0] *)
  speed_is_zero : speed_t → bool;
  (** [fmt::format] of a speed with the replacement field [{}] *)
  fmt_speed : speed_t → string;
  (** value type of [Vehicle.Cabin.Seat.Row1.DriverSide.Position] *)
  position_t : Type;
  (** conversion of a seat position to a JSON value on assignment *)
  json_of_position : position_t → json;
  (** [nlohmann::json::parse]; [None] when it throws [parse_error] *)
  json_parse : string → option json;
  (** [nlohmann::json::dump] *)
  json_dump : json → string;
  (** what the const [operator[]] of this build does for a key that the
      object [j] does not hold: [None] when [JSON_ASSERT] aborts, [Some v]
      when assertions are compiled out and [v] is read *)
  missing_member : json → string → option json;
  (** the [int] this platform yields for the [static_cast] of a double
      whose integer part does not fit [int] *)
  cast_out_of_range : spec_float → Z
}.

(** The data broker as one callback invocation meets it: the answer to a
    read of [Vehicle.Speed] ([None]: [await()] or [value()] throws) and
    whether a write of the seat position is acknowledged ([false]:
    [await()] throws).  The argument of [set_acked] is the [int] passed to
    [set]. *)
Record broker `{Sdk} : Type := {
  speed_reply : option speed_t;
  set_acked : Z → bool
}.

(** What [dataPoints.get(...)->value()] yields on a reply of the data
    broker: the value, or a [std::exception] with its [what()] text. *)
Inductive DataPointReply `{Sdk} : Type :=
  | reply_value (v : position_t)
  | reply_failure (what : string).

(** The [velocitas::Status] handed to an error callback. *)
Record Status : Type := { errorMessage : string }.

(** ** The effect monad of a callback *)

Definition M `{Sdk} (A : Type) : Type := broker → trace * (exn + A).

#[global] Instance M_ret `{Sdk} : MRet M := λ A a _, ([], inr a).

#[global] Instance M_bind `{Sdk} : MBind M := λ A B f m b,
  match m b with
  | (t1, inl e) => (t1, inl e)
  | (t1, inr a) => let '(t2, r) := f a b in ((t1 ++ t2)%list, r)
  end.

Section Primitives.
Context `{Sdk}.

Definition emit (e : event) : M unit := λ _, ([e], inr tt).

Definition lift {A} (r : exn + A) : M A := λ _, ([], r).

Definition logger (lvl : level) (msg : string) : M unit := emit (Log lvl msg).

Definition publishToTopic (topic payload : string) : M unit :=
  emit (Publish topic payload).

(** The two JSON accesses of the callbacks, on this build and platform. *)
Definition const_at (j : json) (key : string) : exn + json :=
  Json.const_at (missing_member j) j key.

Definition get_int (j : json) : exn + Z :=
  Json.get_int cast_out_of_range j.

Definition parse (data : string) : M json :=
  lift (match json_parse data with
        | Some j => inr j
        | None => inl parse_error
        end).

(** [Vehicle.Speed.get()->await().value()] *)
Definition Speed_get : M speed_t := λ b,
  ([SpeedGet], match speed_reply b with
               | Some v => inr v
               | None => inl async_failure
               end).

(** [Vehicle.Cabin.Seat.Row1.DriverSide.Position.set(v)->await()] *)
Definition Position_set (v : Z) : M unit := λ b,
  ([PositionSet v], if set_acked b v then inr tt else inl async_failure).

End Primitives.

(** ** Constants of the application *)

Definition TOPIC_REQUEST : string := "seatadjuster/setPosition/request".
Definition TOPIC_REQUEST_Right : string := "seatadjuster/setPosition/requestRight".
Definition TOPIC_RESPONSE : string := "seatadjuster/setPosition/response".
Definition TOPIC_CURRENT_POSITION : string := "seatadjuster/currentPosition".

Definition JSON_FIELD_REQUEST_ID : string := "requestId".
Definition JSON_FIELD_POSITION : string := "position".
Definition JSON_FIELD_STATUS : string := "status".
Definition JSON_FIELD_MESSAGE : string := "message".
Definition JSON_FIELD_RESULT : string := "result".

Definition STATUS_OK : Z := 0.
Definition STATUS_FAIL : Z := 1.

(** The double quote character of the debug line. *)
Definition dquote : string := String (Ascii.ascii_of_nat 34) EmptyString.

(** ** The callbacks *)

Section SeatAdjusterApp.
Context `{Sdk}.

Definition onSetPositionRequestReceived (data : string) : M unit :=
  logger Debug ("position request: " +:+ dquote +:+ data +:+ dquote) ;;
  jsonData ← parse data;
  if negb (Json.contains jsonData JSON_FIELD_POSITION) then
    let errorMsg := "No position specified" in
    logger Error errorMsg ;;
    rid ← lift (const_at jsonData JSON_FIELD_REQUEST_ID);
    let respData :=
      Json.object [(JSON_FIELD_REQUEST_ID, rid);
                   (JSON_FIELD_STATUS, JInt STATUS_FAIL);
                   (JSON_FIELD_MESSAGE, JString errorMsg)] in
    publishToTopic TOPIC_RESPONSE (json_dump respData)
  else
    p ← lift (const_at jsonData JSON_FIELD_POSITION);
    desiredSeatPosition ← lift (get_int p);
    r ← lift (const_at jsonData JSON_FIELD_REQUEST_ID);
    requestId ← lift (get_int r);
    (* the empty braces given for the result member make a null value, which
       the assignments below turn into an object *)
    let respData :=
      Json.object [(JSON_FIELD_REQUEST_ID, JInt requestId);
                   (JSON_FIELD_RESULT, JNull)] in
    vehicleSpeed ← Speed_get;
    respData ←
      (if speed_is_zero vehicleSpeed then
         Position_set desiredSeatPosition ;;
         respData ← lift (Json.assign_member2 respData JSON_FIELD_RESULT
                            JSON_FIELD_STATUS (JInt STATUS_OK));
         lift (Json.assign_member2 respData JSON_FIELD_RESULT
                 JSON_FIELD_MESSAGE
                 (JString ("Set Seat position to: "
                           +:+ pretty desiredSeatPosition)))
       else
         let errorMsg :=
           "Not allowed to move seat because vehicle speed is "
           +:+ fmt_speed vehicleSpeed +:+ " and not 0" in
         logger Info errorMsg ;;
         respData ← lift (Json.assign_member2 respData JSON_FIELD_RESULT
                            JSON_FIELD_STATUS (JInt STATUS_FAIL));
         lift (Json.assign_member2 respData JSON_FIELD_RESULT
                 JSON_FIELD_MESSAGE (JString errorMsg)));
    publishToTopic TOPIC_RESPONSE (json_dump respData).

Definition onSeatPositionChanged (dataPoints : DataPointReply) : M unit :=
  let jsonResponse := JNull in
  jsonResponse ←
    match dataPoints with
    | reply_value seatPositionValue =>
        lift (Json.assign_member jsonResponse JSON_FIELD_POSITION
                (json_of_position seatPositionValue))
    | reply_failure what =>
        logger Warn ("Unable to get Current Seat Position, Exception: "
                     +:+ what) ;;
        jsonResponse ← lift (Json.assign_member jsonResponse JSON_FIELD_STATUS
                               (JInt STATUS_FAIL));
        lift (Json.assign_member jsonResponse JSON_FIELD_MESSAGE
                (JString what))
    end;
  publishToTopic TOPIC_CURRENT_POSITION (json_dump jsonResponse).

Definition onError (status : Status) : M unit :=
  logger Error ("Error occurred during async invocation: "
                +:+ errorMessage status).

Definition onErrorDatapoint (status : Status) : M unit :=
  logger Error ("Datapoint: Error occurred during async invocation: "
                +:+ errorMessage status).

Definition onErrorTopic (status : Status) : M unit :=
  logger Error ("Topic: Error occurred during async invocation: "
                +:+ errorMessage status).

(** *** Subscription wiring ([onStart]) *)

Inductive subscription : Type :=
  | DataPointSubscription (query : string)
      (onItem : DataPointReply → M unit) (onError : Status → M unit)
  | TopicSubscription (topic : string)
      (onItem : string → M unit) (onError : Status → M unit).

Definition SEAT_POSITION_PATH : string :=
  "Vehicle.Cabin.Seat.Row1.DriverSide.Position".

(** The log line of [onStart] and the subscriptions it registers, in
    program order. *)
Definition onStart : trace * list subscription :=
  ([Log Info "Subscribe for data points!"],
   [DataPointSubscription SEAT_POSITION_PATH
      onSeatPositionChanged onErrorDatapoint;
    TopicSubscription TOPIC_REQUEST
      onSetPositionRequestReceived onErrorTopic;
    TopicSubscription TOPIC_REQUEST_Right
      onSetPositionRequestReceived onErrorTopic]).

(** The callbacks the bus invokes for a message on [topic]. *)
Definition deliver (subs : list subscription) (topic payload : string)
  : list (M unit) :=
  omap (λ s, match s with
             | TopicSubscription t onItem _ =>
                 if bool_decide (t = topic) then Some (onItem payload)
                 else None
             | DataPointSubscription _ _ _ => None
             end) subs.

(** The callbacks invoked for a data point update of the path [path]. *)
Definition notify (subs : list subscription) (path : string)
    (reply : DataPointReply) : list (M unit) :=
  omap (λ s, match s with
             | DataPointSubscription q onItem _ =>
                 if bool_decide (q = path) then Some (onItem reply)
                 else None
             | TopicSubscription _ _ _ => None
             end) subs.

End SeatAdjusterApp.

(** ** Routing of subscription errors

    The [onError] callbacks registered next to the [onItem] ones: what the
    SDK invokes when a subscription reports a failure. *)

Section ErrorRouting.
Context `{Sdk}.

(** The callbacks invoked when the subscription to [topic] fails. *)
Definition fail_topic (subs : list subscription) (topic : string)
    (status : Status) : list (M unit) :=
  omap (λ s, match s with
             | TopicSubscription t _ onError =>
                 if bool_decide (t = topic) then Some (onError status)
                 else None
             | DataPointSubscription _ _ _ => None
             end) subs.

(** The callbacks invoked when the subscription to the data point [path]
    fails. *)
Definition fail_datapoint (subs : list subscription) (path : string)
    (status : Status) : list (M unit) :=
  omap (λ s, match s with
             | DataPointSubscription q _ onError =>
                 if bool_decide (q = path) then Some (onError status)
                 else None
             | TopicSubscription _ _ _ => None
             end) subs.

End ErrorRouting.

(** ** Vocabulary of the statements *)

(** Reading the two fields, as lines 96 and 97 of the source do, in that
    order. *)
Definition fields `{Sdk} (j : json) : exn + (Z * Z) :=
  match const_at j JSON_FIELD_POSITION with
  | inl e => inl e
  | inr p =>
      match get_int p with
      | inl e => inl e
      | inr desiredSeatPosition =>
          match const_at j JSON_FIELD_REQUEST_ID with
          | inl e => inl e
          | inr r =>
              match get_int r with
              | inl e => inl e
              | inr requestId => inr (desiredSeatPosition, requestId)
              end
          end
      end
  end.

(** The integer held by the member [key] of [j], if there is one. *)
Definition integer_field (j : json) (key : string) : option Z :=
  Json.member j key ≫= Json.as_integer.

(** [{requestId, result: {status, message}}] *)
Definition result_response (requestId status : Z) (message : string) : json :=
  Json.object [(JSON_FIELD_REQUEST_ID, JInt requestId);
               (JSON_FIELD_RESULT,
                Json.object [(JSON_FIELD_MESSAGE, JString message);
                             (JSON_FIELD_STATUS, JInt status)])].

(** [{requestId, status, message}] *)
Definition flat_response (requestId : json) (status : Z) (message : string)
  : json :=
  Json.object [(JSON_FIELD_REQUEST_ID, requestId);
               (JSON_FIELD_STATUS, JInt status);
               (JSON_FIELD_MESSAGE, JString message)].

Definition debug_line (data : string) : event :=
  Log Debug ("position request: " +:+ dquote +:+ data +:+ dquote).

Definition blocked_message `{Sdk} (v : speed_t) : string :=
  "Not allowed to move seat because vehicle speed is "
  +:+ fmt_speed v +:+ " and not 0".

Definition moved_message (position : Z) : string :=
  "Set Seat position to: " +:+ pretty position.

Definition returns {A} (r : exn + A) : bool :=
  match r with inr _ => true | inl _ => false end.

(** ** An SDK for the scenarios

    Integral signal values, a parser that knows the payloads of the
    scenarios below, and a compact serializer for JSON text without escape
    sequences (floating values are printed as mantissa and binary
    exponent); a build with assertions, on a platform whose cast of a
    double out of range yields [INT_MIN]. *)

Module Sample.

Definition quoted (s : string) : string := dquote +:+ s +:+ dquote.

Fixpoint join (sep : string) (l : list string) : string :=
  match l with
  | [] => EmptyString
  | [x] => x
  | x :: l' => x +:+ sep +:+ join sep l'
  end.

Definition key_le (a b : string * string) : Prop :=
  String.leb a.1 b.1 = true.

#[local] Instance key_le_dec a b : Decision (key_le a b).
Proof. unfold key_le. apply _. Defined.

Fixpoint dump (j : json) : string :=
  match j with
  | JNull => "null"
  | JBool b => if b then "true" else "false"
  | JInt z | JUInt z => pretty z
  | JFloat (S754_finite s m e) =>
      (if s then "-" else EmptyString)
      +:+ pretty (Z.pos m) +:+ "p" +:+ pretty e
  | JFloat (S754_zero s) => if s then "-0.0" else "0.0"
  | JFloat (S754_infinity _) | JFloat S754_nan => "null"
  | JString s => quoted s
  | JArray l => "[" +:+ join "," (map dump l) +:+ "]"
  | JObject m =>
      "{" +:+ join ","
        (map (λ kv : string * string, quoted kv.1 +:+ ":" +:+ kv.2)
           (merge_sort key_le
              (map_fold (λ k v acc, (k, dump v) :: acc) [] m)))
      +:+ "}"
  end.

(** [{"requestId":id,"position":pos}] with the numbers as written. *)
Definition request_text (id pos : string) : string :=
  "{" +:+ quoted "requestId" +:+ ":" +:+ id +:+ ","
      +:+ quoted "position" +:+ ":" +:+ pos +:+ "}".

Definition request (id pos : json) : json :=
  Json.object [(JSON_FIELD_REQUEST_ID, id); (JSON_FIELD_POSITION, pos)].

Definition request_7_3 : string := request_text "7" "3".
Definition request_8_3 : string := request_text "8" "3".
Definition request_far : string := request_text "7" "4294967299".
Definition request_big_id : string := request_text "4294967303" "3".
Definition request_text_position : string :=
  request_text "1" (quoted "front").
Definition request_half : string := request_text "7" "2.5".
(** [{"position":3}] *)
Definition request_no_id : string := "{" +:+ quoted "position" +:+ ":3}".
(** [{"requestId":-4}] *)
Definition request_no_position : string :=
  "{" +:+ quoted "requestId" +:+ ":-4}".
Definition request_array : string := "[]".
Definition request_pair : string := "[7,3]".
Definition request_garbage : string := "seat forward, please".

(** The parser on the payloads above: non-negative integers are unsigned,
    negative ones signed, [2.5] is the double 5 * 2^-1. *)
Definition payloads : gmap string json :=
  list_to_map
    [(request_7_3, request (JUInt 7) (JUInt 3));
     (request_8_3, request (JUInt 8) (JUInt 3));
     (request_far, request (JUInt 7) (JUInt 4294967299));
     (request_big_id, request (JUInt 4294967303) (JUInt 3));
     (request_text_position, request (JUInt 1) (JString "front"));
     (request_half, request (JUInt 7) (JFloat (S754_finite false 5 (-1))));
     (request_no_id, Json.object [(JSON_FIELD_POSITION, JUInt 3)]);
     (request_no_position, Json.object [(JSON_FIELD_REQUEST_ID, JInt (-4))]);
     (request_array, JArray []);
     (request_pair, JArray [JUInt 7; JUInt 3])].

Definition sdk : Sdk := {|
  speed_t := Z;
  speed_is_zero := λ v, v =? 0;
  fmt_speed := pretty;
  position_t := Z;
  json_of_position := JUInt;
  json_parse := λ data, payloads !! data;
  json_dump := dump;
  missing_member := λ _ _, None;
  cast_out_of_range := λ _, Json.INT_MIN
|}.

(** A data broker that reports the speed [v] and acknowledges writes. *)
Definition at_speed (v : Z) : @broker sdk :=
  @Build_broker sdk (Some v) (λ _, true).

(** Replies of the data broker to the subscription. *)
Definition seat_at (v : Z) : @DataPointReply sdk := @reply_value sdk v.

Definition seat_unknown (what : string) : @DataPointReply sdk :=
  @reply_failure sdk what.

(** The request callback and the mirror callback on this SDK. *)
Definition request_run (data : string) (b : @broker sdk)
  : trace * (exn + unit) :=
  @onSetPositionRequestReceived sdk data b.

Definition mirror_run (reply : @DataPointReply sdk) (b : @broker sdk)
  : trace * (exn + unit) :=
  @onSeatPositionChanged sdk reply b.

End Sample.

(** ** More payloads and data brokers for the scenarios *)

Module Bench.

Definition request_true : string := Sample.request_text "7" "true".
Definition request_minus_half : string := Sample.request_text "7" "-2.5".

(** The payloads of [Sample] and two more: a boolean position, and the
    double -(5 * 2^-1). *)
Definition payloads : gmap string json :=
  <[request_true := Sample.request (JUInt 7) (JBool true)]>
    (<[request_minus_half :=
         Sample.request (JUInt 7) (JFloat (S754_finite true 5 (-1)))]>
       Sample.payloads).

Definition sdk : Sdk := {|
  speed_t := Z;
  speed_is_zero := λ v, v =? 0;
  fmt_speed := pretty;
  position_t := Z;
  json_of_position := JUInt;
  json_parse := λ data, payloads !! data;
  json_dump := Sample.dump;
  missing_member := λ _ _, None;
  cast_out_of_range := λ _, Json.INT_MIN
|}.

(** The SDK of [Sample] built without assertions, where the const
    [operator[]] reads [v] for a missing key. *)
Definition unchecked (v : json) : Sdk := {|
  speed_t := Z;
  speed_is_zero := λ v, v =? 0;
  fmt_speed := pretty;
  position_t := Z;
  json_of_position := JUInt;
  json_parse := λ data, Sample.payloads !! data;
  json_dump := Sample.dump;
  missing_member := λ _ _, Some v;
  cast_out_of_range := λ _, Json.INT_MIN
|}.

(** A data broker at standstill that acknowledges writes. *)
Definition standing : @broker sdk := @Build_broker sdk (Some 0) (λ _, true).

(** A data broker whose read of the speed fails. *)
Definition silent : @broker Sample.sdk :=
  @Build_broker Sample.sdk None (λ _, true).

(** A data broker at standstill that does not acknowledge writes. *)
Definition stuck : @broker Sample.sdk :=
  @Build_broker Sample.sdk (Some 0) (λ _, false).

End Bench.

(** ** Sentences of the specification, word for word

    Each definition states one sentence of the specification over every
    SDK, payload and data broker, before it is compared with the code. *)

Module AsStated.

(** Speed 0: one write of the requested position and an OK response, for
    every integer position. *)
Definition permitted_request : Prop :=
  ∀ (S : Sdk) (data : string) (j : json) (p r : Z) (v : speed_t)
    (b : broker),
    json_parse data = Some j →
    integer_field j JSON_FIELD_POSITION = Some p →
    integer_field j JSON_FIELD_REQUEST_ID = Some r →
    speed_reply b = Some v → speed_is_zero v = true →
    let t := (onSetPositionRequestReceived data b).1 in
    writes t = [p] ∧
    ∃ rid, published t =
             [(TOPIC_RESPONSE,
               json_dump (result_response rid STATUS_OK (moved_message p)))].

(** No [position] member: a FAIL response, no telemetry access. *)
Definition missing_position : Prop :=
  ∀ (S : Sdk) (data : string) (j : json) (b : broker),
    json_parse data = Some j →
    Json.member j JSON_FIELD_POSITION = None →
    let t := (onSetPositionRequestReceived data b).1 in
    (∃ rid, published t =
              [(TOPIC_RESPONSE,
                json_dump (flat_response rid STATUS_FAIL
                             "No position specified"))]) ∧
    reads t = 0%nat ∧ writes t = [].

(** Every payload that decodes is answered by exactly one publication. *)
Definition one_publication : Prop :=
  ∀ (S : Sdk) (data : string) (j : json) (b : broker),
    json_parse data = Some j →
    let t := (onSetPositionRequestReceived data b).1 in
    (∃ payload, published t = [(TOPIC_RESPONSE, payload)]) ∧
    (reads t ≤ 1)%nat ∧ (length (writes t) ≤ 1)%nat.


(** The response carries the [requestId] of the request, for every
    integer. *)
Definition request_id_echoed : Prop :=
  ∀ (S : Sdk) (data : string) (j resp : json) (r : Z) (b : broker),
    json_parse data = Some j →
    integer_field j JSON_FIELD_REQUEST_ID = Some r →
    published (onSetPositionRequestReceived data b).1 =
      [(TOPIC_RESPONSE, json_dump resp)] →
    integer_field resp JSON_FIELD_REQUEST_ID = Some r.

(** With [position] present, a missing [requestId] or a non-integer field
    aborts the callback before any telemetry access or publication. *)
Definition decode_before_telemetry : Prop :=
  ∀ (S : Sdk) (data : string) (j : json) (b : broker),
    json_parse data = Some j →
    Json.contains j JSON_FIELD_POSITION = true →
    integer_field j JSON_FIELD_POSITION = None ∨
      integer_field j JSON_FIELD_REQUEST_ID = None →
    let run := onSetPositionRequestReceived data b in
    returns run.2 = false ∧ reads run.1 = 0%nat ∧ writes run.1 = [] ∧
    published run.1 = [].

End AsStated.

(** The rational value of a finite double [m * 2^e] lies between the
    integer [t] and the next integer away from zero. *)
Definition truncates_to (m : positive) (e t : Z) : Prop :=
  Z.abs t * 2 ^ (- e) ≤ Z.pos m < (Z.abs t + 1) * 2 ^ (- e).

(** Unfolding of the monad and of the callbacks down to traces. *)
Ltac run :=
  cbv beta iota zeta delta
    [onSetPositionRequestReceived onSeatPositionChanged
     mbind M_bind mret M_ret logger emit lift parse publishToTopic
     Speed_get Position_set negb app].

(** * Properties *)

(** ** Scenarios of the specification, evaluated *)

Example scenario_standing :
  Sample.request_run Sample.request_7_3 (Sample.at_speed 0) =
    ([debug_line Sample.request_7_3; SpeedGet; PositionSet 3;
      Publish TOPIC_RESPONSE
        (Sample.dump (result_response 7 0 "Set Seat position to: 3"))],
     inr tt).
Proof. vm_compute. reflexivity. Qed.

Example scenario_driving :
  Sample.request_run Sample.request_8_3 (Sample.at_speed 15) =
    ([debug_line Sample.request_8_3; SpeedGet;
      Log Info "Not allowed to move seat because vehicle speed is 15 and not 0";
      Publish TOPIC_RESPONSE
        (Sample.dump
           (result_response 8 1
              "Not allowed to move seat because vehicle speed is 15 and not 0"))],
     inr tt).
Proof. vm_compute. reflexivity. Qed.

Example scenario_mirror :
  published (Sample.mirror_run (Sample.seat_at 42) (Sample.at_speed 0)).1 =
    [(TOPIC_CURRENT_POSITION,
      "{" +:+ Sample.quoted "position" +:+ ":42}")].
Proof. vm_compute. reflexivity. Qed.

(** ** Conversions and member access *)

Lemma to_int_fits z : Json.int_fits z = true → Json.to_int z = z.
Proof.
  unfold Json.int_fits, Json.INT_MIN, Json.INT_MAX, Json.to_int.
  intros [H1 H2]%andb_prop. apply Z.leb_le in H1, H2.
  rewrite Z.mod_small; lia.
Qed.

Lemma to_int_range z : Json.int_fits (Json.to_int z) = true.
Proof.
  unfold Json.int_fits, Json.INT_MIN, Json.INT_MAX, Json.to_int.
  pose proof (Z.mod_pos_bound (z + 2 ^ 31) (2 ^ 32) ltac:(lia)).
  apply andb_true_intro; split; apply Z.leb_le; lia.
Qed.

Section Access.
Context `{Sdk}.

Lemma get_int_integer j z :
  Json.as_integer j = Some z → get_int j = inr (Json.to_int z).
Proof. destruct j; simpl; intros [= <-]; reflexivity. Qed.

Lemma get_int_not_arithmetic j :
  Json.is_arithmetic j = false → get_int j = inl (type_error 302).
Proof. destruct j; simpl; intros; done. Qed.

Lemma get_int_arithmetic j :
  Json.is_arithmetic j = true → ∃ z, get_int j = inr z.
Proof. destruct j; simpl; intros; try done; eauto. Qed.

Lemma member_const_at j key v :
  Json.member j key = Some v →
  Json.contains j key = true ∧ const_at j key = inr v.
Proof.
  destruct j; simpl; try discriminate. intros Hm. split.
  - apply bool_decide_eq_true. eauto.
  - unfold const_at. simpl. by rewrite Hm.
Qed.

Lemma member_none_contains j key :
  Json.member j key = None → Json.contains j key = false.
Proof.
  destruct j; simpl; try done. intros ->.
  apply bool_decide_eq_false. intros [? ?]. discriminate.
Qed.

Lemma contains_member j key :
  Json.contains j key = true → ∃ v, Json.member j key = Some v.
Proof.
  destruct j; simpl; try discriminate.
  intros [v Hv]%bool_decide_eq_true. eauto.
Qed.

Lemma const_at_missing j key :
  Json.contains j JSON_FIELD_POSITION = true →
  Json.member j key = None →
  const_at j key = match missing_member j key with
                   | Some v => inr v
                   | None => inl assertion_failure
                   end.
Proof.
  destruct j; simpl; try discriminate. intros _ Hm.
  unfold const_at. simpl. by rewrite Hm.
Qed.

Lemma integer_field_member j key z :
  integer_field j key = Some z →
  ∃ v, Json.member j key = Some v ∧ Json.as_integer v = Some z.
Proof.
  unfold integer_field. destruct (Json.member j key) as [v|]; simpl; [|done].
  eauto.
Qed.

Lemma get_int_range j z : get_int j = inr z → Json.int_fits z = true.
Proof.
  destruct j as [|[]|z'|n|f|s|l|m]; simpl; try discriminate.
  - intros [= <-]. reflexivity.
  - intros [= <-]. reflexivity.
  - intros [= <-]. apply to_int_range.
  - intros [= <-]. apply to_int_range.
  - intros [= <-]. destruct (Json.trunc f) as [t|]; [|apply to_int_range].
    destruct (Json.int_fits t) eqn:Hfit; [done|apply to_int_range].
Qed.

Lemma fields_range j p r :
  fields j = inr (p, r) →
  Json.int_fits p = true ∧ Json.int_fits r = true.
Proof.
  unfold fields.
  destruct (const_at j JSON_FIELD_POSITION) as [|jp]; [discriminate|].
  destruct (get_int jp) as [|p'] eqn:Hp; [discriminate|].
  destruct (const_at j JSON_FIELD_REQUEST_ID) as [|jr]; [discriminate|].
  destruct (get_int jr) as [|r'] eqn:Hr; [discriminate|].
  intros [= <- <-]. eauto using get_int_range.
Qed.

Lemma fields_integers j p r :
  integer_field j JSON_FIELD_POSITION = Some p →
  integer_field j JSON_FIELD_REQUEST_ID = Some r →
  Json.contains j JSON_FIELD_POSITION = true ∧
  fields j = inr (Json.to_int p, Json.to_int r).
Proof.
  intros (jp & Hp & Hpz)%integer_field_member
         (jr & Hr & Hrz)%integer_field_member.
  apply member_const_at in Hp as [Hc Hp], Hr as [_ Hr].
  split; [done|]. unfold fields.
  rewrite Hp, (get_int_integer _ _ Hpz), Hr, (get_int_integer _ _ Hrz).
  reflexivity.
Qed.

(** The two members present: [fields] is the two conversions. *)
Lemma fields_present j jp jr :
  Json.member j JSON_FIELD_POSITION = Some jp →
  Json.member j JSON_FIELD_REQUEST_ID = Some jr →
  Json.contains j JSON_FIELD_POSITION = true ∧
  fields j = match get_int jp with
             | inl e => inl e
             | inr p => match get_int jr with
                        | inl e => inl e
                        | inr r => inr (p, r)
                        end
             end.
Proof.
  intros [Hc Hp]%member_const_at [_ Hr]%member_const_at.
  split; [done|]. unfold fields. rewrite Hp.
  destruct (get_int jp); [done|]. by rewrite Hr.
Qed.

End Access.

(** ** Building the response object *)

Lemma assign_status rid st :
  Json.assign_member2
    (Json.object [(JSON_FIELD_REQUEST_ID, JInt rid); (JSON_FIELD_RESULT, JNull)])
    JSON_FIELD_RESULT JSON_FIELD_STATUS (JInt st)
  = inr (Json.object [(JSON_FIELD_REQUEST_ID, JInt rid);
                      (JSON_FIELD_RESULT,
                       Json.object [(JSON_FIELD_STATUS, JInt st)])]).
Proof. vm_compute. reflexivity. Qed.

Lemma assign_message rid st msg :
  Json.assign_member2
    (Json.object [(JSON_FIELD_REQUEST_ID, JInt rid);
                  (JSON_FIELD_RESULT,
                   Json.object [(JSON_FIELD_STATUS, JInt st)])])
    JSON_FIELD_RESULT JSON_FIELD_MESSAGE (JString msg)
  = inr (result_response rid st msg).
Proof. vm_compute. reflexivity. Qed.

Lemma result_response_request_id rid st msg :
  integer_field (result_response rid st msg) JSON_FIELD_REQUEST_ID = Some rid.
Proof. vm_compute. reflexivity. Qed.

Lemma flat_response_request_id rid st msg :
  Json.member (flat_response rid st msg) JSON_FIELD_REQUEST_ID = Some rid.
Proof. vm_compute. reflexivity. Qed.

(** ** Runs of [onSetPositionRequestReceived], branch by branch *)

Section Runs.
Context `{Sdk}.

Lemma run_unparsable data b :
  json_parse data = None →
  onSetPositionRequestReceived data b = ([debug_line data], inl parse_error).
Proof. intros Hp. run. rewrite Hp. reflexivity. Qed.

Lemma run_no_position data j b :
  json_parse data = Some j →
  Json.contains j JSON_FIELD_POSITION = false →
  onSetPositionRequestReceived data b =
    match const_at j JSON_FIELD_REQUEST_ID with
    | inr rid =>
        ([debug_line data; Log Error "No position specified";
          Publish TOPIC_RESPONSE
            (json_dump (flat_response rid STATUS_FAIL "No position specified"))],
         inr tt)
    | inl e => ([debug_line data; Log Error "No position specified"], inl e)
    end.
Proof.
  intros Hp Hc. run. rewrite Hp. run. rewrite Hc. run.
  destruct (const_at j JSON_FIELD_REQUEST_ID); reflexivity.
Qed.

Lemma run_position data j b :
  json_parse data = Some j →
  Json.contains j JSON_FIELD_POSITION = true →
  onSetPositionRequestReceived data b =
    match fields j with
    | inl e => ([debug_line data], inl e)
    | inr (p, r) =>
        match speed_reply b with
        | None => ([debug_line data; SpeedGet], inl async_failure)
        | Some v =>
            if speed_is_zero v then
              if set_acked b p then
                ([debug_line data; SpeedGet; PositionSet p;
                  Publish TOPIC_RESPONSE
                    (json_dump (result_response r STATUS_OK (moved_message p)))],
                 inr tt)
              else ([debug_line data; SpeedGet; PositionSet p],
                    inl async_failure)
            else
              ([debug_line data; SpeedGet; Log Info (blocked_message v);
                Publish TOPIC_RESPONSE
                  (json_dump (result_response r STATUS_FAIL (blocked_message v)))],
               inr tt)
        end
    end.
Proof.
  intros Hp Hc. run. rewrite Hp. run. rewrite Hc. run. unfold fields.
  destruct (const_at j JSON_FIELD_POSITION) as [|jp]; [done|].
  destruct (get_int jp) as [|p]; [done|].
  destruct (const_at j JSON_FIELD_REQUEST_ID) as [|jr]; [done|].
  destruct (get_int jr) as [|r]; [done|].
  destruct (speed_reply b) as [v|]; [|done].
  destruct (speed_is_zero v).
  - destruct (set_acked b p); [|done].
    rewrite assign_status. run. rewrite assign_message. reflexivity.
  - rewrite assign_status. run.
    fold (blocked_message v). rewrite assign_message. reflexivity.
Qed.

Lemma run_mirror reply b :
  onSeatPositionChanged reply b =
    match reply with
    | reply_value v =>
        ([Publish TOPIC_CURRENT_POSITION
            (json_dump (Json.object
                          [(JSON_FIELD_POSITION, json_of_position v)]))],
         inr tt)
    | reply_failure what =>
        ([Log Warn ("Unable to get Current Seat Position, Exception: "
                    +:+ what);
          Publish TOPIC_CURRENT_POSITION
            (json_dump (Json.object
                          [(JSON_FIELD_MESSAGE, JString what);
                           (JSON_FIELD_STATUS, JInt STATUS_FAIL)]))],
         inr tt)
    end.
Proof. destruct reply; reflexivity. Qed.

End Runs.

(** ** The request callback *)

Section Request.
Context `{Sdk}.

(** C5: a payload that the JSON parser rejects makes the callback throw
    [parse_error]; nothing is published and the data broker is neither
    read nor written. *)
Theorem unparsable_payload_dropped data b :
  json_parse data = None →
  let run := onSetPositionRequestReceived data b in
  run.2 = inl parse_error ∧ published run.1 = [] ∧
  reads run.1 = 0%nat ∧ writes run.1 = [].
Proof. intros Hp. simpl. rewrite (run_unparsable _ _ Hp). done. Qed.

(** C2: with integer [position] and [requestId] members and a speed
    reading that is not zero, no write is issued and the one publication
    is the FAIL response whose message quotes the speed. *)
Theorem moving_vehicle_blocks_request data j p r v b :
  json_parse data = Some j →
  integer_field j JSON_FIELD_POSITION = Some p →
  integer_field j JSON_FIELD_REQUEST_ID = Some r →
  speed_reply b = Some v → speed_is_zero v = false →
  let run := onSetPositionRequestReceived data b in
  writes run.1 = [] ∧
  published run.1 =
    [(TOPIC_RESPONSE,
      json_dump
        (result_response (Json.to_int r) 1
           ("Not allowed to move seat because vehicle speed is "
            +:+ fmt_speed v +:+ " and not 0")))] ∧
  reads run.1 = 1%nat ∧ run.2 = inr tt.
Proof.
  intros Hj Hp Hr Hv Hz. destruct (fields_integers _ _ _ Hp Hr) as [Hc Hf].
  simpl. rewrite (run_position _ _ _ Hj Hc), Hf, Hv, Hz. done.
Qed.

(** C1, amended: with integer [position] and [requestId] members, the
    position within the range of [int], and a speed reading of zero,
    exactly one write is issued, of the requested position; once the
    data broker acknowledges it, the one publication is the OK response
    with the message "Set Seat position to: {position}". *)
Theorem standing_vehicle_moves_seat data j p r v b :
  json_parse data = Some j →
  integer_field j JSON_FIELD_POSITION = Some p →
  integer_field j JSON_FIELD_REQUEST_ID = Some r →
  Json.int_fits p = true →
  speed_reply b = Some v → speed_is_zero v = true →
  let run := onSetPositionRequestReceived data b in
  writes run.1 = [p] ∧
  (set_acked b p = true →
   published run.1 =
     [(TOPIC_RESPONSE,
       json_dump
         (result_response (Json.to_int r) 0
            ("Set Seat position to: " +:+ pretty p)))] ∧
   run.2 = inr tt).
Proof.
  intros Hj Hp Hr Hfit Hv Hz.
  destruct (fields_integers _ _ _ Hp Hr) as [Hc Hf].
  rewrite (to_int_fits _ Hfit) in Hf.
  simpl. rewrite (run_position _ _ _ Hj Hc), Hf, Hv, Hz.
  destruct (set_acked b p); [done|]. split; [done|]. discriminate.
Qed.

(** C3, amended: when the payload decodes to an object that holds a
    [requestId] member and no [position] member, the one publication is
    the FAIL response "No position specified" that carries that member
    unchanged, and the data broker is neither read nor written. *)
Theorem missing_position_answered data j rid b :
  json_parse data = Some j →
  Json.member j JSON_FIELD_POSITION = None →
  Json.member j JSON_FIELD_REQUEST_ID = Some rid →
  let run := onSetPositionRequestReceived data b in
  published run.1 =
    [(TOPIC_RESPONSE,
      json_dump (flat_response rid 1 "No position specified"))] ∧
  reads run.1 = 0%nat ∧ writes run.1 = [] ∧ run.2 = inr tt.
Proof.
  intros Hj Hp Hr. apply member_none_contains in Hp.
  apply member_const_at in Hr as [_ Hr].
  simpl. rewrite (run_no_position _ _ _ Hj Hp), Hr. done.
Qed.

End Request.

Lemma unparsable_payload_dropped_witness :
  Sample.payloads !! Sample.request_garbage = None ∧
  let run := Sample.request_run Sample.request_garbage (Sample.at_speed 0) in
  run.2 = inl parse_error ∧ published run.1 = [] ∧
  reads run.1 = 0%nat ∧ writes run.1 = [].
Proof.
  split; [vm_compute; reflexivity|].
  apply (@unparsable_payload_dropped Sample.sdk).
  vm_compute; reflexivity.
Defined.

Lemma moving_vehicle_blocks_request_witness :
  let run := Sample.request_run Sample.request_8_3 (Sample.at_speed (-15)) in
  writes run.1 = [] ∧
  published run.1 =
    [(TOPIC_RESPONSE,
      Sample.dump
        (result_response 8 1
           "Not allowed to move seat because vehicle speed is -15 and not 0"))] ∧
  reads run.1 = 1%nat ∧ run.2 = inr tt.
Proof.
  apply (@moving_vehicle_blocks_request Sample.sdk Sample.request_8_3
           (Sample.request (JUInt 8) (JUInt 3)) 3 8 (-15)
           (Sample.at_speed (-15)));
    vm_compute; reflexivity.
Defined.

Lemma standing_vehicle_moves_seat_witness :
  let run := Sample.request_run Sample.request_7_3 (Sample.at_speed 0) in
  writes run.1 = [3] ∧
  published run.1 =
    [(TOPIC_RESPONSE,
      Sample.dump (result_response 7 0 "Set Seat position to: 3"))] ∧
  run.2 = inr tt.
Proof.
  destruct (@standing_vehicle_moves_seat Sample.sdk Sample.request_7_3
              (Sample.request (JUInt 7) (JUInt 3)) 3 7 0 (Sample.at_speed 0))
    as [Hwrite Hanswer]; try (vm_compute; reflexivity).
  split; [exact Hwrite|]. apply Hanswer. reflexivity.
Defined.

Lemma missing_position_answered_witness :
  let run := Sample.request_run Sample.request_no_position
               (Sample.at_speed 0) in
  published run.1 =
    [(TOPIC_RESPONSE,
      Sample.dump (flat_response (JInt (-4)) 1 "No position specified"))] ∧
  reads run.1 = 0%nat ∧ writes run.1 = [] ∧ run.2 = inr tt.
Proof.
  apply (@missing_position_answered Sample.sdk Sample.request_no_position
           (Json.object [(JSON_FIELD_REQUEST_ID, JInt (-4))]) (JInt (-4))
           (Sample.at_speed 0));
    vm_compute; reflexivity.
Defined.

(** The position 4294967299 does not fit [int]: the seat is sent to 3. *)
Lemma permitted_request_overflow : ¬ AsStated.permitted_request.
Proof.
  intros Hclaim.
  destruct (Hclaim Sample.sdk Sample.request_far
              (Sample.request (JUInt 7) (JUInt 4294967299)) 4294967299 7 0
              (Sample.at_speed 0)) as [Hw _]; try (vm_compute; reflexivity).
  vm_compute in Hw. discriminate Hw.
Qed.

(** The payload [[]] decodes and has no [position] member, yet the const
    [operator[]] throws [type_error] 305 and nothing is published. *)
Lemma missing_position_array : ¬ AsStated.missing_position.
Proof.
  intros Hclaim.
  destruct (Hclaim Sample.sdk Sample.request_array (JArray [])
              (Sample.at_speed 0)) as [[rid Hpub] _];
    try (vm_compute; reflexivity).
  vm_compute in Hpub. discriminate Hpub.
Qed.

Example overflow_run :
  Sample.request_run Sample.request_far (Sample.at_speed 0) =
    ([debug_line Sample.request_far; SpeedGet; PositionSet 3;
      Publish TOPIC_RESPONSE
        (Sample.dump (result_response 7 0 "Set Seat position to: 3"))],
     inr tt).
Proof. vm_compute. reflexivity. Qed.

Example array_run :
  Sample.request_run Sample.request_array (Sample.at_speed 0) =
    ([debug_line Sample.request_array; Log Error "No position specified"],
     inl (type_error 305)).
Proof. vm_compute. reflexivity. Qed.

(** ** Effects of the request callback, over all payloads *)

Section Effects.
Context `{Sdk}.

(** C4, amended: the callback publishes exactly one message, on the
    response topic, in each of its three branches: for an object that
    holds [requestId] and no [position]; and, with both members of a kind
    [get<int>()] converts and the speed read answered, when the speed is
    not zero and when it is zero and the write is acknowledged.  For every
    payload and every behaviour of the data broker it reads the speed at
    most once, writes at most once and publishes at most once, on the
    response topic only, exactly once when it returns. *)
Theorem request_answered_once data b :
  let run := onSetPositionRequestReceived data b in
  (∀ j,
     json_parse data = Some j →
     (Json.member j JSON_FIELD_POSITION = None ∧
      is_Some (Json.member j JSON_FIELD_REQUEST_ID)) ∨
     (∃ jp jr p r v,
        Json.member j JSON_FIELD_POSITION = Some jp ∧
        Json.member j JSON_FIELD_REQUEST_ID = Some jr ∧
        get_int jp = inr p ∧ get_int jr = inr r ∧
        speed_reply b = Some v ∧
        (speed_is_zero v = false ∨ set_acked b p = true)) →
     run.2 = inr tt ∧
     ∃ payload, published run.1 = [(TOPIC_RESPONSE, payload)]) ∧
  (reads run.1 ≤ 1)%nat ∧ (length (writes run.1) ≤ 1)%nat ∧
  length (published run.1) = (if returns run.2 then 1%nat else 0%nat) ∧
  ∀ topic payload,
    (topic, payload) ∈ published run.1 → topic = TOPIC_RESPONSE.
Proof.
  assert (Hnone : ∀ topic payload : string,
            (topic, payload) ∈ @nil (string * string) → topic = TOPIC_RESPONSE)
    by (intros ?? Hin; by apply elem_of_nil in Hin).
  assert (Hone : ∀ (x topic payload : string),
            (topic, payload) ∈ [(TOPIC_RESPONSE, x)] → topic = TOPIC_RESPONSE)
    by (intros ??? Hin; apply list_elem_of_singleton in Hin; congruence).
  simpl. split.
  - intros j Hj [[Hp [rid Hr]]|(jp & jr & p & r & v & Hp & Hr & Hgp & Hgr
                                 & Hv & Hgo)].
    + apply member_none_contains in Hp.
      apply member_const_at in Hr as [_ Hr].
      rewrite (run_no_position _ _ _ Hj Hp), Hr. simpl. eauto.
    + destruct (fields_present _ _ _ Hp Hr) as [Hc Hf].
      rewrite Hgp, Hgr in Hf.
      rewrite (run_position _ _ _ Hj Hc), Hf, Hv.
      destruct (speed_is_zero v); [|simpl; eauto].
      destruct Hgo as [|Ha]; [done|]. rewrite Ha. simpl. eauto.
  - destruct (json_parse data) as [j|] eqn:Hj.
    + destruct (Json.contains j JSON_FIELD_POSITION) eqn:Hc.
      * rewrite (run_position _ _ _ Hj Hc).
        destruct (fields j) as [e|[p r]]; [simpl; auto with lia|].
        destruct (speed_reply b) as [v|]; [|simpl; auto with lia].
        destruct (speed_is_zero v); [destruct (set_acked b p)|]; simpl;
          split_and!; eauto with lia.
      * rewrite (run_no_position _ _ _ Hj Hc).
        destruct (const_at j JSON_FIELD_REQUEST_ID); simpl;
          split_and!; eauto with lia.
    + rewrite (run_unparsable _ _ Hj). simpl. auto with lia.
Qed.

(** X18: whatever the payload, a position handed to the data broker is an
    [int]. *)
Lemma written_position_fits data b :
  Forall (λ v, Json.int_fits v = true)
    (writes (onSetPositionRequestReceived data b).1).
Proof.
  destruct (json_parse data) as [j|] eqn:Hj.
  - destruct (Json.contains j JSON_FIELD_POSITION) eqn:Hc.
    + rewrite (run_position _ _ _ Hj Hc).
      destruct (fields j) as [e|[p r]] eqn:Hf; [by constructor|].
      apply fields_range in Hf as [Hp _].
      destruct (speed_reply b) as [v|]; [|by constructor].
      destruct (speed_is_zero v); [destruct (set_acked b p)|]; simpl;
        repeat constructor; done.
    + rewrite (run_no_position _ _ _ Hj Hc).
      destruct (const_at j JSON_FIELD_REQUEST_ID); by constructor.
  - rewrite (run_unparsable _ _ Hj). by constructor.
Qed.

End Effects.

Lemma request_answered_once_witness :
  (let run := Sample.request_run Sample.request_8_3 (Sample.at_speed 15) in
   run.2 = inr tt ∧ ∃ payload, published run.1 = [(TOPIC_RESPONSE, payload)]) ∧
  (let run := Sample.request_run Sample.request_7_3 (Sample.at_speed 0) in
   run.2 = inr tt ∧ ∃ payload, published run.1 = [(TOPIC_RESPONSE, payload)]) ∧
  (let run := Sample.request_run Sample.request_no_position
                (Sample.at_speed 0) in
   run.2 = inr tt ∧ ∃ payload, published run.1 = [(TOPIC_RESPONSE, payload)]).
Proof.
  split_and!.
  - apply (@request_answered_once Sample.sdk Sample.request_8_3
             (Sample.at_speed 15))
      with (j := Sample.request (JUInt 8) (JUInt 3));
      [vm_compute; reflexivity|].
    right. exists (JUInt 3), (JUInt 8), 3, 8, 15.
    split_and!; try (vm_compute; reflexivity). left. reflexivity.
  - apply (@request_answered_once Sample.sdk Sample.request_7_3
             (Sample.at_speed 0))
      with (j := Sample.request (JUInt 7) (JUInt 3));
      [vm_compute; reflexivity|].
    right. exists (JUInt 3), (JUInt 7), 3, 7, 0.
    split_and!; try (vm_compute; reflexivity). right. reflexivity.
  - apply (@request_answered_once Sample.sdk Sample.request_no_position
             (Sample.at_speed 0))
      with (j := Json.object [(JSON_FIELD_REQUEST_ID, JInt (-4))]);
      [vm_compute; reflexivity|].
    left. split; [vm_compute; reflexivity|].
    exists (JInt (-4)). vm_compute; reflexivity.
Defined.

(** The payload [[7,3]] decodes as JSON, yet the const [operator[]] throws
    [type_error] 305 on it and nothing is published. *)
Lemma one_publication_pair : ¬ AsStated.one_publication.
Proof.
  intros Hclaim.
  destruct (Hclaim Sample.sdk Sample.request_pair
              (JArray [JUInt 7; JUInt 3])
              (Sample.at_speed 0)) as [[payload Hpub] _];
    try (vm_compute; reflexivity).
  vm_compute in Hpub. discriminate Hpub.
Qed.

Example pair_run :
  Sample.request_run Sample.request_pair (Sample.at_speed 0) =
    ([debug_line Sample.request_pair; Log Error "No position specified"],
     inl (type_error 305)).
Proof. vm_compute. reflexivity. Qed.

Example text_position_run :
  Sample.request_run Sample.request_text_position (Sample.at_speed 0) =
    ([debug_line Sample.request_text_position], inl (type_error 302)).
Proof. vm_compute. reflexivity. Qed.

(** A read of the speed that fails leaves the request unanswered. *)
Example failed_read_run :
  @onSetPositionRequestReceived Sample.sdk Sample.request_7_3
    (@Build_broker Sample.sdk None (λ _, true)) =
    ([debug_line Sample.request_7_3; SpeedGet], inl async_failure).
Proof. vm_compute. reflexivity. Qed.

(** ** The request identifier *)

Section RequestId.
Context `{Sdk}.

Lemma fields_request_id j jr r :
  Json.contains j JSON_FIELD_POSITION = true →
  Json.member j JSON_FIELD_REQUEST_ID = Some jr →
  get_int jr = inr r →
  (∃ e, fields j = inl e) ∨ (∃ p, fields j = inr (p, r)).
Proof.
  intros [jp Hp]%contains_member Hr Hg.
  apply member_const_at in Hp as [_ Hp], Hr as [_ Hr].
  unfold fields. rewrite Hp, Hr, Hg.
  destruct (get_int jp) as [e|p]; eauto.
Qed.

Lemma run_fields_fail data j b e :
  json_parse data = Some j →
  Json.contains j JSON_FIELD_POSITION = true →
  fields j = inl e →
  onSetPositionRequestReceived data b = ([debug_line data], inl e).
Proof. intros Hj Hc Hf. rewrite (run_position _ _ _ Hj Hc), Hf. done. Qed.

Lemma run_fields_publish data j b p r :
  json_parse data = Some j →
  Json.contains j JSON_FIELD_POSITION = true →
  fields j = inr (p, r) →
  let run := onSetPositionRequestReceived data b in
  if returns run.2 then
    ∃ st msg, published run.1 =
                [(TOPIC_RESPONSE, json_dump (result_response r st msg))]
  else published run.1 = [].
Proof.
  intros Hj Hc Hf. simpl. rewrite (run_position _ _ _ Hj Hc), Hf.
  destruct (speed_reply b) as [v|]; [|done].
  destruct (speed_is_zero v); [destruct (set_acked b p)|]; simpl; eauto.
Qed.

(** C6: a request without [requestId] is not answered with an unset
    identifier.  On a build with assertions the const [operator[]] aborts
    at the missing key, in either branch, and nothing is published, read
    or written.  On a build without assertions, where [position] is
    present and the value read for the missing key is not a number (null,
    say), [get<int>()] throws and again nothing is published. *)
Theorem absent_request_id_not_tolerated data j b :
  json_parse data = Some j →
  Json.member j JSON_FIELD_REQUEST_ID = None →
  let run := onSetPositionRequestReceived data b in
  (missing_member j JSON_FIELD_REQUEST_ID = None →
   returns run.2 = false ∧ published run.1 = [] ∧
   reads run.1 = 0%nat ∧ writes run.1 = []) ∧
  (∀ v, missing_member j JSON_FIELD_REQUEST_ID = Some v →
        Json.contains j JSON_FIELD_POSITION = true →
        Json.is_arithmetic v = false →
        returns run.2 = false ∧ published run.1 = [] ∧
        reads run.1 = 0%nat ∧ writes run.1 = []).
Proof.
  intros Hj Hr. simpl. split.
  - intros Hm. destruct (Json.contains j JSON_FIELD_POSITION) eqn:Hc.
    + assert (∃ e, fields j = inl e) as [e He].
      { unfold fields. rewrite (const_at_missing _ _ Hc Hr), Hm.
        destruct (const_at j JSON_FIELD_POSITION) as [|jp]; [eauto|].
        destruct (get_int jp); eauto. }
      rewrite (run_fields_fail _ _ b _ Hj Hc He). done.
    + rewrite (run_no_position _ _ _ Hj Hc).
      assert (∃ e, const_at j JSON_FIELD_REQUEST_ID = inl e) as [e ->]; [|done].
      unfold const_at. destruct j; simpl; eauto.
      simpl in Hr. rewrite Hr, Hm. eauto.
  - intros v Hm Hc Hk.
    assert (∃ e, fields j = inl e) as [e He].
    { unfold fields. rewrite (const_at_missing _ _ Hc Hr), Hm.
      destruct (const_at j JSON_FIELD_POSITION) as [|jp]; [eauto|].
      destruct (get_int jp); [eauto|].
      rewrite (get_int_not_arithmetic _ Hk). eauto. }
    rewrite (run_fields_fail _ _ b _ Hj Hc He). done.
Qed.

(** C8, amended: for an integer [requestId] in the request, every
    response published carries the same integer, provided it fits [int]
    where [position] is present (where [position] is missing any integer
    is echoed); a response is published exactly when the callback
    returns. *)
Theorem request_id_echoed_within_int data j r b :
  json_parse data = Some j →
  integer_field j JSON_FIELD_REQUEST_ID = Some r →
  (Json.contains j JSON_FIELD_POSITION = true → Json.int_fits r = true) →
  let run := onSetPositionRequestReceived data b in
  if returns run.2 then
    ∃ resp, published run.1 = [(TOPIC_RESPONSE, json_dump resp)] ∧
            integer_field resp JSON_FIELD_REQUEST_ID = Some r
  else published run.1 = [].
Proof.
  intros Hj (jr & Hr & Hz)%integer_field_member Hfit. simpl.
  destruct (Json.contains j JSON_FIELD_POSITION) eqn:Hc.
  - pose proof (get_int_integer _ _ Hz) as Hg.
    rewrite (to_int_fits _ (Hfit eq_refl)) in Hg.
    destruct (fields_request_id _ _ _ Hc Hr Hg) as [[e He]|[p Hf]].
    + rewrite (run_fields_fail _ _ b _ Hj Hc He). done.
    + pose proof (run_fields_publish _ _ b _ _ Hj Hc Hf) as Hpub.
      simpl in Hpub.
      destruct (returns (onSetPositionRequestReceived data b).2); [|done].
      destruct Hpub as (st & msg & Hpub). eexists. split; [exact Hpub|].
      apply result_response_request_id.
  - apply member_const_at in Hr as [_ Hr'].
    rewrite (run_no_position _ _ _ Hj Hc), Hr'. simpl.
    eexists. split; [reflexivity|].
    unfold integer_field. rewrite flat_response_request_id. exact Hz.
Qed.

(** C10, amended: with [position] present, the speed is read only after
    [get<int>()] has succeeded on both members; when one of the two
    members is of a kind that [get<int>()] rejects (null, string, array,
    object), the callback is left by an exception before any telemetry
    access and nothing is published. *)
Theorem telemetry_after_decoding data j b :
  json_parse data = Some j →
  Json.contains j JSON_FIELD_POSITION = true →
  let run := onSetPositionRequestReceived data b in
  ((0 < reads run.1)%nat → ∃ p r, fields j = inr (p, r)) ∧
  ((∃ jp, Json.member j JSON_FIELD_POSITION = Some jp ∧
          Json.is_arithmetic jp = false) ∨
   (∃ jr, Json.member j JSON_FIELD_REQUEST_ID = Some jr ∧
          Json.is_arithmetic jr = false) →
   run = ([debug_line data], inl (type_error 302)) ∧
   reads run.1 = 0%nat ∧ writes run.1 = [] ∧ published run.1 = []).
Proof.
  intros Hj Hc. simpl. split.
  - rewrite (run_position _ _ _ Hj Hc).
    destruct (fields j) as [e|[p r]]; [|eauto].
    unfold reads, debug_line. simpl. lia.
  - intros Hbad.
    assert (fields j = inl (type_error 302)) as He.
    { destruct Hbad as [(jp & Hp & Hk)|(jr & Hr & Hk)].
      - apply member_const_at in Hp as [_ Hp]. unfold fields.
        by rewrite Hp, (get_int_not_arithmetic _ Hk).
      - destruct (contains_member _ _ Hc) as [jp Hp].
        destruct (fields_present _ _ _ Hp Hr) as [_ ->].
        rewrite (get_int_not_arithmetic _ Hk).
        destruct (get_int jp) as [e|p] eqn:Hg; [|done].
        destruct (Json.is_arithmetic jp) eqn:Hkp.
        + destruct (get_int_arithmetic _ Hkp) as [z Hz]. congruence.
        + rewrite (get_int_not_arithmetic _ Hkp) in Hg. congruence. }
    rewrite (run_fields_fail _ _ b _ Hj Hc He). done.
Qed.

End RequestId.

Lemma absent_request_id_not_tolerated_witness :
  (let run := Sample.request_run Sample.request_no_id (Sample.at_speed 0) in
   returns run.2 = false ∧ published run.1 = [] ∧
   reads run.1 = 0%nat ∧ writes run.1 = []) ∧
  (let run := @onSetPositionRequestReceived (Bench.unchecked JNull)
                Sample.request_no_id
                (@Build_broker (Bench.unchecked JNull) (Some 0) (λ _, true)) in
   returns run.2 = false ∧ published run.1 = [] ∧
   reads run.1 = 0%nat ∧ writes run.1 = []).
Proof.
  split.
  - apply (@absent_request_id_not_tolerated Sample.sdk Sample.request_no_id
             (Json.object [(JSON_FIELD_POSITION, JUInt 3)])
             (Sample.at_speed 0)); vm_compute; reflexivity.
  - apply (@absent_request_id_not_tolerated (Bench.unchecked JNull)
             Sample.request_no_id
             (Json.object [(JSON_FIELD_POSITION, JUInt 3)])
             (@Build_broker (Bench.unchecked JNull) (Some 0) (λ _, true)))
      with (v := JNull); vm_compute; reflexivity.
Defined.

(** [{"position":3}] on the build with assertions, and on a build without
    them that reads null for the missing key. *)
Example no_id_run :
  Sample.request_run Sample.request_no_id (Sample.at_speed 0) =
    ([debug_line Sample.request_no_id], inl assertion_failure).
Proof. vm_compute. reflexivity. Qed.

Example no_id_unchecked_run :
  @onSetPositionRequestReceived (Bench.unchecked JNull) Sample.request_no_id
    (@Build_broker (Bench.unchecked JNull) (Some 0) (λ _, true)) =
    ([debug_line Sample.request_no_id], inl (type_error 302)).
Proof. vm_compute. reflexivity. Qed.

Lemma request_id_echoed_within_int_witness :
  let run := Sample.request_run Sample.request_7_3 (Sample.at_speed 0) in
  if returns run.2 then
    ∃ resp, published run.1 = [(TOPIC_RESPONSE, Sample.dump resp)] ∧
            integer_field resp JSON_FIELD_REQUEST_ID = Some 7
  else published run.1 = [].
Proof.
  apply (@request_id_echoed_within_int Sample.sdk Sample.request_7_3
           (Sample.request (JUInt 7) (JUInt 3)) 7 (Sample.at_speed 0));
    vm_compute; reflexivity.
Defined.

(** The [requestId] 4294967303 does not fit [int]: the response says 7. *)
Lemma request_id_echoed_overflow : ¬ AsStated.request_id_echoed.
Proof.
  intros Hclaim.
  pose proof (Hclaim Sample.sdk Sample.request_big_id
                (Sample.request (JUInt 4294967303) (JUInt 3))
                (result_response 7 0 "Set Seat position to: 3")
                4294967303 (Sample.at_speed 0)) as Hecho.
  assert (integer_field (result_response 7 0 "Set Seat position to: 3")
            JSON_FIELD_REQUEST_ID = Some 7) as Hseven
    by (vm_compute; reflexivity).
  rewrite Hseven in Hecho.
  assert (Some 7 = Some 4294967303) as Habs
    by (apply Hecho; vm_compute; reflexivity).
  discriminate Habs.
Qed.

Example big_id_run :
  Sample.request_run Sample.request_big_id (Sample.at_speed 0) =
    ([debug_line Sample.request_big_id; SpeedGet; PositionSet 3;
      Publish TOPIC_RESPONSE
        (Sample.dump (result_response 7 0 "Set Seat position to: 3"))],
     inr tt).
Proof. vm_compute. reflexivity. Qed.

Lemma telemetry_after_decoding_witness :
  let run := Sample.request_run Sample.request_text_position
               (Sample.at_speed 0) in
  run = ([debug_line Sample.request_text_position], inl (type_error 302)) ∧
  reads run.1 = 0%nat ∧ writes run.1 = [] ∧ published run.1 = [].
Proof.
  apply (@telemetry_after_decoding Sample.sdk Sample.request_text_position
           (Sample.request (JUInt 1) (JString "front")) (Sample.at_speed 0));
    try (vm_compute; reflexivity).
  left. exists (JString "front"). split; vm_compute; reflexivity.
Defined.

(** The [position] 2.5 is a number but no integer: [get<int>()] truncates
    it to 2, the speed is read and the seat is moved. *)
Lemma decode_before_telemetry_half : ¬ AsStated.decode_before_telemetry.
Proof.
  intros Hclaim.
  destruct (Hclaim Sample.sdk Sample.request_half
              (Sample.request (JUInt 7) (JFloat (S754_finite false 5 (-1))))
              (Sample.at_speed 0)) as (Hret & _);
    try (vm_compute; reflexivity).
  - left. vm_compute; reflexivity.
  - vm_compute in Hret. discriminate Hret.
Qed.

Example half_run :
  Sample.request_run Sample.request_half (Sample.at_speed 0) =
    ([debug_line Sample.request_half; SpeedGet; PositionSet 2;
      Publish TOPIC_RESPONSE
        (Sample.dump (result_response 7 0 "Set Seat position to: 2"))],
     inr tt).
Proof. vm_compute. reflexivity. Qed.

(** ** The position mirror *)

Section Mirror.
Context `{Sdk}.


End Mirror.



Example empty_what_run :
  Sample.mirror_run (Sample.seat_unknown EmptyString) (Sample.at_speed 0) =
    ([Log Warn "Unable to get Current Seat Position, Exception: ";
      Publish TOPIC_CURRENT_POSITION
        (Sample.dump (Json.object [(JSON_FIELD_MESSAGE, JString EmptyString);
                                   (JSON_FIELD_STATUS, JInt 1)]))],
     inr tt).
Proof. vm_compute. reflexivity. Qed.

(** ** Subscription wiring *)

Section Wiring.
Context `{Sdk}.

(** C9: after [onStart], a payload delivered on the request topic and the
    same payload delivered on the alias topic each invoke one callback,
    [onSetPositionRequestReceived] on that payload; hence, against the
    same data broker, both deliveries produce the same effects and the
    same outcome. *)
Theorem request_topics_share_handler payload b :
  deliver onStart.2 TOPIC_REQUEST payload =
    [onSetPositionRequestReceived payload] ∧
  deliver onStart.2 TOPIC_REQUEST_Right payload =
    [onSetPositionRequestReceived payload] ∧
  map (λ callback, callback b) (deliver onStart.2 TOPIC_REQUEST payload) =
  map (λ callback, callback b)
    (deliver onStart.2 TOPIC_REQUEST_Right payload).
Proof.
  assert (deliver onStart.2 TOPIC_REQUEST payload =
            [onSetPositionRequestReceived payload]) as Hprimary
    by reflexivity.
  assert (deliver onStart.2 TOPIC_REQUEST_Right payload =
            [onSetPositionRequestReceived payload]) as Halias
    by reflexivity.
  rewrite Hprimary, Halias. done.
Qed.

(** The mirror callback alone is wired to the seat position updates. *)
Lemma seat_updates_reach_mirror reply :
  notify onStart.2 SEAT_POSITION_PATH reply = [onSeatPositionChanged reply].
Proof. reflexivity. Qed.

Lemma other_topics_reach_nothing payload :
  deliver onStart.2 TOPIC_RESPONSE payload = [] ∧
  deliver onStart.2 TOPIC_CURRENT_POSITION payload = [].
Proof. split; reflexivity. Qed.

End Wiring.

(** * Further properties of the callbacks *)

Lemma to_int_congruent z : (Json.to_int z - z) mod 2 ^ 32 = 0.
Proof.
  unfold Json.to_int.
  replace ((z + 2 ^ 31) mod 2 ^ 32 - 2 ^ 31 - z)
    with (- ((z + 2 ^ 31) / 2 ^ 32) * 2 ^ 32).
  - apply Z_mod_mult.
  - pose proof (Z_div_mod_eq_full (z + 2 ^ 31) (2 ^ 32)). lia.
Qed.

(** Case analysis on a run of the request callback, branch by branch. *)
Ltac request_cases data b :=
  let j := fresh "j" in
  let Hj := fresh "Hj" in
  let Hc := fresh "Hc" in
  destruct (json_parse data) as [j|] eqn:Hj;
  [ destruct (Json.contains j JSON_FIELD_POSITION) eqn:Hc;
    [ rewrite (run_position data j b Hj Hc);
      let e := fresh "e" in
      let p := fresh "p" in
      let r := fresh "r" in
      let v := fresh "v" in
      let Hf := fresh "Hf" in
      let Hv := fresh "Hv" in
      let Hz := fresh "Hz" in
      let Ha := fresh "Ha" in
      destruct (fields j) as [e|[p r]] eqn:Hf;
      [ | destruct (speed_reply b) as [v|] eqn:Hv;
          [ destruct (speed_is_zero v) eqn:Hz;
            [ destruct (set_acked b p) eqn:Ha | ] | ] ]
    | rewrite (run_no_position data j b Hj Hc);
      let e := fresh "e" in
      let rid := fresh "rid" in
      let Hr := fresh "Hr" in
      destruct (const_at j JSON_FIELD_REQUEST_ID) as [e|rid] eqn:Hr ]
  | rewrite (run_unparsable data b Hj) ].

Section Actuation.
Context `{Sdk}.

(** X1: the seat is commanded only behind the speed gate: whenever a
    position is written, the speed was read first, the reading compared
    equal to zero, and that write is the only one. *)
Theorem write_requires_standstill data b p :
  p ∈ writes (onSetPositionRequestReceived data b).1 →
  ∃ v rest,
    speed_reply b = Some v ∧ speed_is_zero v = true ∧
    (onSetPositionRequestReceived data b).1 =
      debug_line data :: SpeedGet :: PositionSet p :: rest ∧
    writes (onSetPositionRequestReceived data b).1 = [p].
Proof.
  request_cases data b; simpl; intros Hin;
    try (by apply elem_of_nil in Hin);
    apply list_elem_of_singleton in Hin as ->; eauto 10.
Qed.

(** X2: an integer position of any size is reduced to [int] before it is
    used: with a speed of zero the value written and reported is congruent
    to the requested one modulo 2^32 and lies within [int]. *)
Theorem integer_position_wraps data j p r v b :
  json_parse data = Some j →
  integer_field j JSON_FIELD_POSITION = Some p →
  integer_field j JSON_FIELD_REQUEST_ID = Some r →
  speed_reply b = Some v → speed_is_zero v = true →
  set_acked b (Json.to_int p) = true →
  ∃ q,
    onSetPositionRequestReceived data b =
      ([debug_line data; SpeedGet; PositionSet q;
        Publish TOPIC_RESPONSE
          (json_dump (result_response (Json.to_int r) 0
                        ("Set Seat position to: " +:+ pretty q)))],
       inr tt) ∧
    (q - p) mod 2 ^ 32 = 0 ∧ - 2 ^ 31 ≤ q ≤ 2 ^ 31 - 1.
Proof.
  intros Hj Hp Hr Hv Hz Ha. destruct (fields_integers _ _ _ Hp Hr) as [Hc Hf].
  exists (Json.to_int p). rewrite (run_position _ _ _ Hj Hc), Hf, Hv, Hz, Ha.
  split; [done|]. split; [apply to_int_congruent|].
  pose proof (to_int_range p) as [H1 H2]%andb_prop.
  apply Z.leb_le in H1, H2. unfold Json.INT_MIN, Json.INT_MAX in *. lia.
Qed.

(** X3: a boolean [position] is accepted by [get<int>()]: with a speed of
    zero the seat is sent to 1 for [true] and to 0 for [false]. *)
Theorem boolean_position_moves_seat data j flag r v b :
  json_parse data = Some j →
  Json.member j JSON_FIELD_POSITION = Some (JBool flag) →
  integer_field j JSON_FIELD_REQUEST_ID = Some r →
  speed_reply b = Some v → speed_is_zero v = true →
  (∀ z, set_acked b z = true) →
  let run := onSetPositionRequestReceived data b in
  writes run.1 = [if flag then 1 else 0] ∧
  published run.1 =
    [(TOPIC_RESPONSE,
      json_dump (result_response (Json.to_int r) 0
                   (if flag then "Set Seat position to: 1"
                    else "Set Seat position to: 0")))] ∧
  run.2 = inr tt.
Proof.
  intros Hj Hp (jr & Hr & Hrz)%integer_field_member Hv Hz Ha.
  apply member_const_at in Hp as [Hc Hp], Hr as [_ Hr].
  assert (fields j = inr (if flag then 1 else 0, Json.to_int r)) as Hf.
  { unfold fields. rewrite Hp. simpl. rewrite Hr, (get_int_integer _ _ Hrz).
    done. }
  simpl. rewrite (run_position _ _ _ Hj Hc), Hf, Hv, Hz, Ha.
  destruct flag; done.
Qed.

End Actuation.

Section Answers.
Context `{Sdk}.

(** X4: without a [position] member the data broker is left alone and the
    run does not depend on it: the speed is not read, nothing is written,
    and the error line "No position specified" is logged even when no
    response can be built. *)
Theorem missing_position_skips_telemetry data j b b' :
  json_parse data = Some j →
  Json.contains j JSON_FIELD_POSITION = false →
  let run := onSetPositionRequestReceived data b in
  reads run.1 = 0%nat ∧ writes run.1 = [] ∧
  logged run.1 =
    [(Debug, "position request: " +:+ dquote +:+ data +:+ dquote);
     (Error, "No position specified")] ∧
  run = onSetPositionRequestReceived data b'.
Proof.
  intros Hj Hc. simpl. rewrite !(run_no_position _ _ _ Hj Hc).
  destruct (const_at j JSON_FIELD_REQUEST_ID); done.
Qed.

(** X5: a payload that decodes to anything but an object (null, a boolean,
    a number, a string, an array) is never answered: after the error line
    the const [operator[]] throws [type_error] 305. *)
Theorem non_object_payload_unanswered data j b :
  json_parse data = Some j →
  (∀ m, j ≠ JObject m) →
  onSetPositionRequestReceived data b =
    ([debug_line data; Log Error "No position specified"],
     inl (type_error 305)).
Proof.
  intros Hj Hno.
  assert (Json.contains j JSON_FIELD_POSITION = false) as Hc
    by (destruct j; try done; by destruct (Hno m)).
  rewrite (run_no_position _ _ _ Hj Hc).
  destruct j; try done. by destruct (Hno m).
Qed.

(** X6: when the read of the speed fails, the request is dropped: one read
    is attempted, nothing is written, nothing is published and the
    exception leaves the callback. *)
Theorem failed_read_drops_request data j p r b :
  json_parse data = Some j →
  integer_field j JSON_FIELD_POSITION = Some p →
  integer_field j JSON_FIELD_REQUEST_ID = Some r →
  speed_reply b = None →
  let run := onSetPositionRequestReceived data b in
  run.2 = inl async_failure ∧ reads run.1 = 1%nat ∧
  writes run.1 = [] ∧ published run.1 = [].
Proof.
  intros Hj Hp Hr Hv. destruct (fields_integers _ _ _ Hp Hr) as [Hc Hf].
  simpl. rewrite (run_position _ _ _ Hj Hc), Hf, Hv. done.
Qed.

(** X7: when the write of the seat position is not acknowledged, the write
    has been attempted but no response is published: the requester is not
    told, and the exception leaves the callback. *)
Theorem failed_write_drops_response data j p r v b :
  json_parse data = Some j →
  integer_field j JSON_FIELD_POSITION = Some p →
  integer_field j JSON_FIELD_REQUEST_ID = Some r →
  speed_reply b = Some v → speed_is_zero v = true →
  set_acked b (Json.to_int p) = false →
  let run := onSetPositionRequestReceived data b in
  run.2 = inl async_failure ∧ writes run.1 = [Json.to_int p] ∧
  published run.1 = [].
Proof.
  intros Hj Hp Hr Hv Hz Ha. destruct (fields_integers _ _ _ Hp Hr) as [Hc Hf].
  simpl. rewrite (run_position _ _ _ Hj Hc), Hf, Hv, Hz, Ha. done.
Qed.

(** X8: for a payload that decodes to an object holding [requestId], the
    request callback returns, and so answers, in exactly these
    situations: there is no [position]; or [get<int>()] converts both
    members, the speed read is answered, and either the speed is not zero
    or it is zero and the write is acknowledged. *)
Theorem answered_iff data j rid b :
  json_parse data = Some j →
  Json.member j JSON_FIELD_REQUEST_ID = Some rid →
  returns (onSetPositionRequestReceived data b).2 = true ↔
  Json.member j JSON_FIELD_POSITION = None ∨
  ∃ jp p r v,
    Json.member j JSON_FIELD_POSITION = Some jp ∧
    get_int jp = inr p ∧ get_int rid = inr r ∧
    speed_reply b = Some v ∧
    (speed_is_zero v = false ∨
     speed_is_zero v = true ∧ set_acked b p = true).
Proof.
  intros Hj Hr. destruct (Json.member j JSON_FIELD_POSITION) as [jp|] eqn:Hp.
  - destruct (fields_present _ _ _ Hp Hr) as [Hc Hf].
    rewrite (run_position _ _ _ Hj Hc), Hf. split.
    + destruct (get_int jp) as [e|p] eqn:Hgp; [done|].
      destruct (get_int rid) as [e|r] eqn:Hgr; [done|].
      destruct (speed_reply b) as [v|] eqn:Hv; [|done].
      destruct (speed_is_zero v) eqn:Hz;
        [destruct (set_acked b p) eqn:Ha; [|done]|];
        intros _; right; exists jp, p, r, v; eauto 10.
    + intros [|(jp' & p & r & v & [= <-] & -> & -> & -> & Hgo)]; [done|].
      destruct Hgo as [->|[-> ->]]; done.
  - apply member_none_contains in Hp as Hc.
    apply member_const_at in Hr as [_ Hr'].
    rewrite (run_no_position _ _ _ Hj Hc), Hr'. split; [eauto|done].
Qed.

(** X9: what the response says agrees with what was done and logged:
    status 0 is published exactly with the one write of the position it
    names; status 1 is published only when nothing was written, either
    with the speed that was read or for a missing [position] without any
    read, and its message is the line logged just before. *)
Theorem status_reflects_actuation data b :
  let run := onSetPositionRequestReceived data b in
  returns run.2 = true →
  ∃ resp,
    published run.1 = [(TOPIC_RESPONSE, json_dump resp)] ∧
    ((∃ r p, resp = result_response r 0 (moved_message p) ∧
             writes run.1 = [p] ∧ reads run.1 = 1%nat) ∨
     (∃ r v, resp = result_response r 1 (blocked_message v) ∧
             speed_reply b = Some v ∧ speed_is_zero v = false ∧
             writes run.1 = [] ∧ reads run.1 = 1%nat ∧
             last (logged run.1) = Some (Info, blocked_message v)) ∨
     (∃ rid, resp = flat_response rid 1 "No position specified" ∧
             writes run.1 = [] ∧ reads run.1 = 0%nat ∧
             last (logged run.1) = Some (Error, "No position specified"))).
Proof.
  simpl. request_cases data b; simpl; try discriminate; intros _.
  - exists (result_response r STATUS_OK (moved_message p)).
    split; [reflexivity|]. left. exists r, p. done.
  - exists (result_response r STATUS_FAIL (blocked_message v)).
    split; [reflexivity|]. right. left. exists r, v. done.
  - exists (flat_response rid STATUS_FAIL "No position specified").
    split; [reflexivity|]. right. right. exists rid. done.
Qed.

(** X10: every run, answered or not, starts by logging the payload between
    double quotes, before the payload is parsed, and logs at most one more
    line. *)
Theorem payload_logged_first data b :
  let run := onSetPositionRequestReceived data b in
  (∃ rest, run.1 = Log Debug ("position request: " +:+ dquote +:+ data
                               +:+ dquote) :: rest) ∧
  (length (logged run.1) ≤ 2)%nat.
Proof.
  simpl. request_cases data b; simpl; (split; [unfold debug_line; eauto|lia]).
Qed.

End Answers.

Section Decoding.
Context `{Sdk}.

Lemma trunc_toward_zero s m e t :
  Json.trunc (S754_finite s m e) = Some t → e < 0 →
  truncates_to m e t ∧ (if s then t ≤ 0 else 0 ≤ t).
Proof.
  simpl. intros [= <-] He. destruct (Z.leb_spec 0 e) as [|_]; [lia|].
  assert (0 < 2 ^ (- e)) as Hd by (apply Z.pow_pos_nonneg; lia).
  assert (0 ≤ Z.pos m / 2 ^ (- e)) as Hq by (apply Z.div_pos; lia).
  pose proof (Z.mul_div_le (Z.pos m) (2 ^ (- e)) Hd).
  pose proof (Z.mul_succ_div_gt (Z.pos m) (2 ^ (- e)) Hd).
  unfold truncates_to. destruct s.
  - rewrite Z.abs_opp, Z.abs_eq by done. lia.
  - rewrite Z.abs_eq by done. lia.
Qed.

(** X11: a [position] with a fractional part is accepted and truncated
    towards zero, never rounded: with a speed of zero the seat is sent to
    the integer part of the number, with the sign of the number. *)
Theorem fractional_position_truncated data j s m e r v b :
  json_parse data = Some j →
  Json.member j JSON_FIELD_POSITION = Some (JFloat (S754_finite s m e)) →
  e < 0 → Z.pos m / 2 ^ (- e) ≤ 2 ^ 31 - 1 →
  integer_field j JSON_FIELD_REQUEST_ID = Some r →
  speed_reply b = Some v → speed_is_zero v = true →
  (∀ z, set_acked b z = true) →
  let run := onSetPositionRequestReceived data b in
  ∃ t,
    writes run.1 = [t] ∧ truncates_to m e t ∧
    (if s then t ≤ 0 else 0 ≤ t) ∧
    published run.1 =
      [(TOPIC_RESPONSE,
        json_dump (result_response (Json.to_int r) 0
                     ("Set Seat position to: " +:+ pretty t)))] ∧
    run.2 = inr tt.
Proof.
  intros Hj Hp He Hfit (jr & Hr & Hrz)%integer_field_member Hv Hz Ha.
  destruct (Json.trunc (S754_finite s m e)) as [t|] eqn:Ht; [|done].
  destruct (trunc_toward_zero _ _ _ _ Ht He) as [Htr Hsign].
  assert (Json.int_fits t = true) as Hin.
  { assert (0 < 2 ^ (- e)) as Hd by (apply Z.pow_pos_nonneg; lia).
    assert (Z.abs t = Z.pos m / 2 ^ (- e)) as Habs.
    { destruct Htr as [Hlo Hhi]. apply Z.div_unique_pos with
        (r := Z.pos m - Z.abs t * 2 ^ (- e)); lia. }
    unfold Json.int_fits, Json.INT_MIN, Json.INT_MAX.
    apply andb_true_intro; split; apply Z.leb_le; lia. }
  apply member_const_at in Hp as [Hc Hp], Hr as [_ Hr].
  assert (fields j = inr (t, Json.to_int r)) as Hf.
  { assert (get_int (JFloat (S754_finite s m e)) = inr t) as Hg
      by (unfold get_int, Json.get_int; by rewrite Ht, Hin).
    unfold fields. rewrite Hp, Hg, Hr, (get_int_integer _ _ Hrz). done. }
  exists t. simpl. rewrite (run_position _ _ _ Hj Hc), Hf, Hv, Hz, Ha. done.
Qed.

(** X12: with [position] present, a member of a kind [get<int>()] rejects
    ends the callback with [type_error] 302 after the debug line only:
    [position] is converted first, so a rejected [position] does so
    whatever [requestId] is, even when it is missing; a rejected
    [requestId] does so when [position] converts. *)
Theorem decode_failure_kinds data j b :
  json_parse data = Some j →
  Json.contains j JSON_FIELD_POSITION = true →
  let run := onSetPositionRequestReceived data b in
  (∀ jp, Json.member j JSON_FIELD_POSITION = Some jp →
         Json.is_arithmetic jp = false →
         run = ([debug_line data], inl (type_error 302))) ∧
  (∀ jp jr, Json.member j JSON_FIELD_POSITION = Some jp →
            Json.is_arithmetic jp = true →
            Json.member j JSON_FIELD_REQUEST_ID = Some jr →
            Json.is_arithmetic jr = false →
            run = ([debug_line data], inl (type_error 302))).
Proof.
  intros Hj Hc. simpl. split.
  - intros jp [_ Hp]%member_const_at Hk.
    apply (run_fields_fail _ _ _ _ Hj Hc). unfold fields.
    rewrite Hp, (get_int_not_arithmetic _ Hk). done.
  - intros jp jr Hp [p Hg]%get_int_arithmetic Hr Hk.
    apply (run_fields_fail _ _ _ _ Hj Hc).
    destruct (fields_present _ _ _ Hp Hr) as [_ ->].
    rewrite Hg, (get_int_not_arithmetic _ Hk). done.
Qed.

End Decoding.

Section MirrorShape.
Context `{Sdk}.


End MirrorShape.

Section Routing.
Context `{Sdk}.

Lemma request_publishes_on_response data b topic payload :
  (topic, payload) ∈ published (onSetPositionRequestReceived data b).1 →
  topic = TOPIC_RESPONSE.
Proof.
  request_cases data b; simpl; intros Hin;
    try (by apply elem_of_nil in Hin);
    apply list_elem_of_singleton in Hin; congruence.
Qed.

Lemma mirror_publishes_on_broadcast reply b topic payload :
  (topic, payload) ∈ published (onSeatPositionChanged reply b).1 →
  topic = TOPIC_CURRENT_POSITION.
Proof.
  rewrite run_mirror. destruct reply; simpl; intros Hin;
    apply list_elem_of_singleton in Hin; congruence.
Qed.

(** X14: the three error callbacks only log: each returns after one line at
    error level, publishes nothing and leaves the data broker alone; their
    lines differ whatever the statuses are, so a line tells whether a data
    point subscription, a topic subscription or neither reported it. *)
Theorem error_lines_tell_their_source s1 s2 s3 b :
  let plain := onError s1 b in
  let datapoint := onErrorDatapoint s2 b in
  let topic := onErrorTopic s3 b in
  Forall (λ run : trace * (exn + unit),
            run.2 = inr tt ∧ published run.1 = [] ∧ reads run.1 = 0%nat ∧
            writes run.1 = [] ∧
            ∃ line, logged run.1 = [(Error, line)])
    [plain; datapoint; topic] ∧
  logged plain.1 ≠ logged datapoint.1 ∧
  logged plain.1 ≠ logged topic.1 ∧
  logged datapoint.1 ≠ logged topic.1.
Proof.
  simpl. split_and!.
  - repeat constructor; eexists; reflexivity.
  - intros [=].
  - intros [=].
  - intros [=].
Qed.

(** X15: [onStart] routes a failure of either request topic subscription
    to [onErrorTopic] and a failure of the seat position subscription to
    [onErrorDatapoint], each invoked once; the request callback and the
    mirror are not invoked by a failure, and [onError] is wired to
    nothing. *)
Theorem subscription_errors_routed status b :
  fail_topic onStart.2 TOPIC_REQUEST status = [onErrorTopic status] ∧
  fail_topic onStart.2 TOPIC_REQUEST_Right status = [onErrorTopic status] ∧
  fail_datapoint onStart.2 SEAT_POSITION_PATH status =
    [onErrorDatapoint status] ∧
  (∀ subject callback,
     callback ∈ fail_topic onStart.2 subject status ++
                fail_datapoint onStart.2 subject status →
     published (callback b).1 = [] ∧ writes (callback b).1 = [] ∧
     (callback b).1 ≠ (onError status b).1)%list.
Proof.
  split_and!; try reflexivity.
  intros subject callback Hin.
  assert (callback = onErrorTopic status ∨
          callback = onErrorDatapoint status) as [->| ->].
  { unfold fail_topic, fail_datapoint, onStart in Hin. simpl in Hin.
    repeat case_bool_decide; simpl in Hin;
      rewrite ?elem_of_cons, ?elem_of_nil in Hin; tauto. }
  - split_and!; try reflexivity. intros [=].
  - split_and!; try reflexivity. intros [=].
Qed.

(** X16: [onStart] subscribes to nothing else: a message on a topic other
    than the two request topics, and an update of a data point other than
    the seat position, invoke no callback; an update of the seat position
    invokes the mirror once and never the request callback. *)
Theorem other_events_ignored topic path payload reply :
  (topic ≠ TOPIC_REQUEST → topic ≠ TOPIC_REQUEST_Right →
   deliver onStart.2 topic payload = []) ∧
  (path ≠ SEAT_POSITION_PATH → notify onStart.2 path reply = []) ∧
  notify onStart.2 SEAT_POSITION_PATH reply = [onSeatPositionChanged reply].
Proof.
  split_and!; [| |reflexivity].
  - intros H1 H2. unfold deliver, onStart. simpl.
    rewrite !bool_decide_eq_false_2 by congruence. done.
  - intros H1. unfold notify, onStart. simpl.
    rewrite bool_decide_eq_false_2 by congruence. done.
Qed.

(** X17: the application never consumes what it publishes: a response of
    the request callback or a broadcast of the mirror, delivered back by
    the bus, invokes no callback. *)
Theorem publications_not_consumed data reply b topic payload :
  (topic, payload) ∈ published (onSetPositionRequestReceived data b).1 ∨
  (topic, payload) ∈ published (onSeatPositionChanged reply b).1 →
  deliver onStart.2 topic payload = [].
Proof.
  intros [->%request_publishes_on_response
         | ->%mirror_publishes_on_broadcast]; reflexivity.
Qed.

End Routing.

(** ** The further properties on the scenarios *)

Lemma write_requires_standstill_witness :
  ∃ v rest,
    speed_reply (Sample.at_speed 0) = Some v ∧
    @speed_is_zero Sample.sdk v = true ∧
    (Sample.request_run Sample.request_7_3 (Sample.at_speed 0)).1 =
      debug_line Sample.request_7_3 :: SpeedGet :: PositionSet 3 :: rest ∧
    writes (Sample.request_run Sample.request_7_3 (Sample.at_speed 0)).1 = [3].
Proof.
  apply (@write_requires_standstill Sample.sdk Sample.request_7_3
           (Sample.at_speed 0) 3).
  vm_compute. left.
Defined.

Lemma integer_position_wraps_witness :
  ∃ q,
    Sample.request_run Sample.request_far (Sample.at_speed 0) =
      ([debug_line Sample.request_far; SpeedGet; PositionSet q;
        Publish TOPIC_RESPONSE
          (Sample.dump (result_response 7 0
                          ("Set Seat position to: " +:+ pretty q)))],
       inr tt) ∧
    (q - 4294967299) mod 2 ^ 32 = 0 ∧ - 2 ^ 31 ≤ q ≤ 2 ^ 31 - 1.
Proof.
  apply (@integer_position_wraps Sample.sdk Sample.request_far
           (Sample.request (JUInt 7) (JUInt 4294967299)) 4294967299 7 0
           (Sample.at_speed 0)); vm_compute; reflexivity.
Defined.

Lemma boolean_position_moves_seat_witness :
  let run := @onSetPositionRequestReceived Bench.sdk Bench.request_true
               Bench.standing in
  writes run.1 = [1] ∧
  published run.1 =
    [(TOPIC_RESPONSE,
      Sample.dump (result_response 7 0 "Set Seat position to: 1"))] ∧
  run.2 = inr tt.
Proof.
  apply (@boolean_position_moves_seat Bench.sdk Bench.request_true
           (Sample.request (JUInt 7) (JBool true)) true 7 0 Bench.standing);
    vm_compute; reflexivity.
Defined.

Lemma missing_position_skips_telemetry_witness :
  let run := Sample.request_run Sample.request_no_position
               (Sample.at_speed 0) in
  reads run.1 = 0%nat ∧ writes run.1 = [] ∧
  logged run.1 =
    [(Debug, "position request: " +:+ dquote +:+ Sample.request_no_position
             +:+ dquote);
     (Error, "No position specified")] ∧
  run = Sample.request_run Sample.request_no_position (Sample.at_speed 50).
Proof.
  apply (@missing_position_skips_telemetry Sample.sdk
           Sample.request_no_position
           (Json.object [(JSON_FIELD_REQUEST_ID, JInt (-4))])
           (Sample.at_speed 0) (Sample.at_speed 50));
    vm_compute; reflexivity.
Defined.

Lemma non_object_payload_unanswered_witness :
  Sample.request_run Sample.request_pair (Sample.at_speed 0) =
    ([debug_line Sample.request_pair; Log Error "No position specified"],
     inl (type_error 305)).
Proof.
  apply (@non_object_payload_unanswered Sample.sdk Sample.request_pair
           (JArray [JUInt 7; JUInt 3]) (Sample.at_speed 0)).
  - vm_compute; reflexivity.
  - intros m. discriminate.
Defined.

Lemma failed_read_drops_request_witness :
  let run := Sample.request_run Sample.request_7_3 Bench.silent in
  run.2 = inl async_failure ∧ reads run.1 = 1%nat ∧
  writes run.1 = [] ∧ published run.1 = [].
Proof.
  apply (@failed_read_drops_request Sample.sdk Sample.request_7_3
           (Sample.request (JUInt 7) (JUInt 3)) 3 7 Bench.silent);
    vm_compute; reflexivity.
Defined.

Lemma failed_write_drops_response_witness :
  let run := Sample.request_run Sample.request_7_3 Bench.stuck in
  run.2 = inl async_failure ∧ writes run.1 = [3] ∧ published run.1 = [].
Proof.
  apply (@failed_write_drops_response Sample.sdk Sample.request_7_3
           (Sample.request (JUInt 7) (JUInt 3)) 3 7 0 Bench.stuck);
    vm_compute; reflexivity.
Defined.

Lemma status_reflects_actuation_witness :
  let run := Sample.request_run Sample.request_8_3 (Sample.at_speed 15) in
  ∃ resp,
    published run.1 = [(TOPIC_RESPONSE, Sample.dump resp)] ∧
    ((∃ r p, resp = result_response r 0 (moved_message p) ∧
             writes run.1 = [p] ∧ reads run.1 = 1%nat) ∨
     (∃ r v, resp = result_response r 1 (@blocked_message Sample.sdk v) ∧
             speed_reply (Sample.at_speed 15) = Some v ∧
             @speed_is_zero Sample.sdk v = false ∧
             writes run.1 = [] ∧ reads run.1 = 1%nat ∧
             last (logged run.1) =
               Some (Info, @blocked_message Sample.sdk v)) ∨
     (∃ rid, resp = flat_response rid 1 "No position specified" ∧
             writes run.1 = [] ∧ reads run.1 = 0%nat ∧
             last (logged run.1) = Some (Error, "No position specified"))).
Proof.
  apply (@status_reflects_actuation Sample.sdk Sample.request_8_3
           (Sample.at_speed 15)).
  vm_compute; reflexivity.
Defined.

Lemma fractional_position_truncated_witness :
  let run := @onSetPositionRequestReceived Bench.sdk
               Bench.request_minus_half Bench.standing in
  ∃ t,
    writes run.1 = [t] ∧ truncates_to 5 (-1) t ∧ t ≤ 0 ∧
    published run.1 =
      [(TOPIC_RESPONSE,
        Sample.dump (result_response 7 0
                       ("Set Seat position to: " +:+ pretty t)))] ∧
    run.2 = inr tt.
Proof.
  apply (@fractional_position_truncated Bench.sdk Bench.request_minus_half
           (Sample.request (JUInt 7) (JFloat (S754_finite true 5 (-1))))
           true 5 (-1) 7 0 Bench.standing);
    try (vm_compute; reflexivity).
  vm_compute. discriminate.
Defined.

Example minus_half_run :
  @onSetPositionRequestReceived Bench.sdk Bench.request_minus_half
    Bench.standing =
    ([debug_line Bench.request_minus_half; SpeedGet; PositionSet (-2);
      Publish TOPIC_RESPONSE
        (Sample.dump (result_response 7 0 "Set Seat position to: -2"))],
     inr tt).
Proof. vm_compute. reflexivity. Qed.

Lemma decode_failure_kinds_witness :
  Sample.request_run Sample.request_text_position (Sample.at_speed 0) =
    ([debug_line Sample.request_text_position], inl (type_error 302)).
Proof.
  apply (@decode_failure_kinds Sample.sdk Sample.request_text_position
           (Sample.request (JUInt 1) (JString "front")) (Sample.at_speed 0))
    with (jp := JString "front"); vm_compute; reflexivity.
Defined.

Lemma answered_iff_witness :
  returns (Sample.request_run Sample.request_8_3 (Sample.at_speed 15)).2
    = true ↔
  Json.member (Sample.request (JUInt 8) (JUInt 3)) JSON_FIELD_POSITION = None ∨
  ∃ jp p r v,
    Json.member (Sample.request (JUInt 8) (JUInt 3)) JSON_FIELD_POSITION
      = Some jp ∧
    @get_int Sample.sdk jp = inr p ∧ @get_int Sample.sdk (JUInt 8) = inr r ∧
    speed_reply (Sample.at_speed 15) = Some v ∧
    (@speed_is_zero Sample.sdk v = false ∨
     @speed_is_zero Sample.sdk v = true ∧
     set_acked (Sample.at_speed 15) p = true).
Proof.
  apply (@answered_iff Sample.sdk Sample.request_8_3
           (Sample.request (JUInt 8) (JUInt 3)) (JUInt 8)
           (Sample.at_speed 15)); vm_compute; reflexivity.
Defined.

Lemma publications_not_consumed_witness :
  @deliver Sample.sdk (@onStart Sample.sdk).2 TOPIC_RESPONSE
    (Sample.dump (result_response 7 0 "Set Seat position to: 3")) = [].
Proof.
  apply (@publications_not_consumed Sample.sdk Sample.request_7_3
           (Sample.seat_at 42) (Sample.at_speed 0)).
  left. vm_compute. left.
Defined.

Lemma other_events_ignored_witness :
  @deliver Sample.sdk (@onStart Sample.sdk).2 "seatadjuster/setPosition"
    Sample.request_7_3 = [] ∧
  @notify Sample.sdk (@onStart Sample.sdk).2 "Vehicle.Speed"
    (Sample.seat_at 42) = [].
Proof.
  split.
  - apply (@other_events_ignored Sample.sdk "seatadjuster/setPosition"
             "Vehicle.Speed" Sample.request_7_3 (Sample.seat_at 42));
      discriminate.
  - apply (@other_events_ignored Sample.sdk "seatadjuster/setPosition"
             "Vehicle.Speed" Sample.request_7_3 (Sample.seat_at 42));
      discriminate.
Defined.
